(** * chatgpt_memory.utils.openai_utils

    A shallow embedding of [chatgpt_memory/utils/openai_utils.py]:
    the tokenizer adapter ([load_openai_tokenizer], [count_openai_tokens]),
    the single request attempt and its retrying wrapper ([openai_request])
    and the prompt template ([get_prompt]).

    Python [str] values are modelled as [string], the UTF-8 encoding of the
    text, so that concatenation and formatting are byte-wise.  Exceptions are
    values of [exn]; a computation that may raise returns a [result].  The
    outside world (HTTP transport, clock, tokenizer downloads) is a state of
    an abstract type, threaded explicitly, together with a trace of the
    observable events. *)

From Stdlib Require Import ZArith List String Ascii Bool Lia DecimalString.
Import ListNotations.
Local Open Scope list_scope.
Local Open Scope string_scope.

(** ** Python values shared by the whole module *)

Module Py.

(** The exception classes that occur in the module.  [cBuiltin name] stands
    for any class that the module neither raises nor catches by name
    (requests' [ConnectionError] and [Timeout], [TypeError],
    [ValueError], ...). *)
Inductive exn_class : Type :=
| cOpenAIError
| cOpenAIRateLimitError
| cJSONDecodeError
| cImportError
| cModuleNotFoundError
| cAttributeError
| cBuiltin (name : string).

(** Modelled from the spec: the classes [OpenAIError] and
    [OpenAIRateLimitError] are imported from [chatgpt_memory.errors] on
    line 10 and their source is not part of the module.  The specification
    (3, 7) has the two classified failures [ServiceError{status_code}] and
    [RateLimited], each with a message that holds the raw response text;
    the constructor calls of lines 113-120 give [OpenAIError] a message and
    a status code and [OpenAIRateLimitError] a message.

    The other constructors are the exceptions of Python and its libraries
    that the module meets, with the attributes the code sets. *)
Inductive exn : Type :=
| OpenAIError (message : string) (status_code : Z)
| OpenAIRateLimitError (message : string)
| JSONDecodeError (doc : string)
| ImportError (args : list string)
| ModuleNotFoundError (name : string)
| AttributeError (attribute : string)
| Builtin (name : string) (args : list string).

Definition class_of (e : exn) : exn_class :=
  match e with
  | OpenAIError _ _ => cOpenAIError
  | OpenAIRateLimitError _ => cOpenAIRateLimitError
  | JSONDecodeError _ => cJSONDecodeError
  | ImportError _ => cImportError
  | ModuleNotFoundError _ => cModuleNotFoundError
  | AttributeError _ => cAttributeError
  | Builtin name _ => cBuiltin name
  end.

Definition class_eqb (c d : exn_class) : bool :=
  match c, d with
  | cOpenAIError, cOpenAIError => true
  | cOpenAIRateLimitError, cOpenAIRateLimitError => true
  | cJSONDecodeError, cJSONDecodeError => true
  | cImportError, cImportError => true
  | cModuleNotFoundError, cModuleNotFoundError => true
  | cAttributeError, cAttributeError => true
  | cBuiltin a, cBuiltin b => String.eqb a b
  | _, _ => false
  end.

(** [issubclass c d]: the class itself, or one of the two inheritance
    edges between the named classes.  [openai_request] annotates the
    variable that holds an [OpenAIRateLimitError] as [OpenAIError]
    (line 111), and [ModuleNotFoundError] derives from [ImportError]. *)
Definition issubclass (c d : exn_class) : bool :=
  class_eqb c d
  || match c, d with
     | cOpenAIRateLimitError, cOpenAIError => true
     | cModuleNotFoundError, cImportError => true
     | _, _ => false
     end.

Definition isinstance (e : exn) (c : exn_class) : bool :=
  issubclass (class_of e) c.

(** [except errors]: the exception is an instance of a class of the tuple. *)
Definition catches (errors : list exn_class) (e : exn) : bool :=
  existsb (isinstance e) errors.

(** The outcome of evaluating an expression that may raise. *)
Inductive result (A : Type) : Type :=
| Ok (a : A)
| Raise (e : exn).
Arguments Ok {A} a.
Arguments Raise {A} e.

(** [str(n)] and the [{n}] of an f-string, for an [int]. *)
Definition str_int (n : Z) : string := NilZero.string_of_int (Z.to_int n).

Definition newline : string := String "010"%char "".

(** [needle in haystack] for strings, as a proposition. *)
Definition contains (haystack needle : string) : Prop :=
  exists before after, haystack = before ++ needle ++ after.

(** [s.endswith(suffix)] as a proposition. *)
Definition endswith (s suffix : string) : Prop :=
  exists before, s = before ++ suffix.

End Py.
Export Py.

(** ** [json.loads]

    The decoder of the standard library with its default settings, as the
    scanner of CPython implements it: leading and trailing white space is
    skipped, a value is read greedily, and anything left over is an error.
    A [float] is kept as the text that denotes it, since its binary value
    plays no role here; a [dict] keeps its keys in insertion order, and a
    repeated key overwrites the value at the place of the first.  The
    interpreter's limits (recursion depth, digits of an integer literal)
    are not modelled. *)

Module Json.

#[warnings="-register-all"]
Inductive value : Type :=
| JNull
| JBool (b : bool)
| JInt (n : Z)
| JFloat (text : string)
| JString (s : string)
| JArray (items : list value)
| JObject (members : list (string * value)).

(** [d[k] = v] on an insertion-ordered dictionary. *)
Fixpoint dict_set (k : string) (v : value) (d : list (string * value))
  : list (string * value) :=
  match d with
  | [] => [(k, v)]
  | (k', v') :: d' =>
      if String.eqb k k' then (k', v) :: d' else (k', v') :: dict_set k v d'
  end.

Definition dquote : ascii := "034"%char.
Definition backslash : ascii := "092"%char.

Definition code (c : ascii) : N := N_of_ascii c.

Definition is_ws (c : ascii) : bool :=
  match code c with
  | 32%N | 9%N | 10%N | 13%N => true
  | _ => false
  end.

Definition is_digit (c : ascii) : bool :=
  (48 <=? code c)%N && (code c <=? 57)%N.

Fixpoint skip_ws (s : list ascii) : list ascii :=
  match s with
  | c :: r => if is_ws c then skip_ws r else s
  | [] => []
  end.

(** The longest prefix of decimal digits, and what follows it. *)
Fixpoint span_digits (s : list ascii) : list ascii * list ascii :=
  match s with
  | c :: r =>
      if is_digit c then let (ds, r') := span_digits r in (c :: ds, r')
      else ([], s)
  | [] => ([], [])
  end.

Definition int_of_digits (ds : list ascii) : Z :=
  fold_left (fun acc c => (10 * acc + Z.of_N (code c - 48))%Z) ds 0%Z.

Fixpoint starts_with (p s : list ascii) : option (list ascii) :=
  match p, s with
  | [], _ => Some s
  | a :: p', b :: s' => if Ascii.eqb a b then starts_with p' s' else None
  | _ :: _, [] => None
  end.

Definition chars (s : string) : list ascii := list_ascii_of_string s.
Definition text_of (l : list ascii) : string := string_of_list_ascii l.

(** The rest of [s] after the character [c], when [s] starts with it. *)
Definition expect (c : ascii) (s : list ascii) : option (list ascii) :=
  match s with
  | x :: r => if Ascii.eqb x c then Some r else None
  | [] => None
  end.

(** [_match_number]: an optional minus sign, then either a single zero or
    a non-zero digit with any digits after it; then, if present, a point
    with at least one digit; then, if present, [e] or [E], an optional
    sign and at least one digit.  The match goes as far as it can and
    leaves the rest.  Without fraction and exponent the literal is an
    [int]. *)
Definition match_number (s : list ascii) : option (value * list ascii) :=
  let (sign, s1) :=
    match expect "-" s with
    | Some r => (["-"%char], r)
    | None => ([], s)
    end in
  let integer :=
    match s1 with
    | c :: r =>
        if Ascii.eqb c "0" then Some ([c], r)
        else if is_digit c then
               let (ds, r') := span_digits r in Some (c :: ds, r')
             else None
    | [] => None
    end in
  match integer with
  | None => None
  | Some (ipart, s2) =>
      let (frac, s3) :=
        match expect "." s2 with
        | Some (d :: r) =>
            if is_digit d then
              let (ds, r') := span_digits r in ("."%char :: d :: ds, r')
            else ([], s2)
        | _ => ([], s2)
        end in
      let (expo, s4) :=
        match s3 with
        | e :: r =>
            if Ascii.eqb e "e" || Ascii.eqb e "E" then
              let (sg, r1) :=
                match r with
                | c :: r' =>
                    if Ascii.eqb c "+" || Ascii.eqb c "-" then ([c], r')
                    else ([], r)
                | [] => ([], r)
                end in
              match span_digits r1 with
              | ([], _) => ([], s3)
              | (ds, r2) => (e :: sg ++ ds, r2)
              end
            else ([], s3)
        | [] => ([], s3)
        end in
      match frac, expo with
      | [], [] =>
          let n := int_of_digits ipart in
          Some (JInt (match sign with [] => n | _ => Z.opp n end), s4)
      | _, _ => Some (JFloat (text_of (sign ++ ipart ++ frac ++ expo)), s4)
      end
  end%list.

Definition hex_digit (c : ascii) : option N :=
  let n := code c in
  if (48 <=? n)%N && (n <=? 57)%N then Some (n - 48)%N
  else if (97 <=? n)%N && (n <=? 102)%N then Some (n - 87)%N
  else if (65 <=? n)%N && (n <=? 70)%N then Some (n - 55)%N
  else None.

Definition hex4 (a b c d : ascii) : option N :=
  match hex_digit a, hex_digit b, hex_digit c, hex_digit d with
  | Some x, Some y, Some z, Some w => Some (((x * 16 + y) * 16 + z) * 16 + w)%N
  | _, _, _, _ => None
  end.

Definition byte (n : N) : ascii := ascii_of_N n.

(** The UTF-8 bytes of a code point (a lone surrogate is encoded like any
    other code point of its range). *)
Definition utf8 (cp : N) : list ascii :=
  if (cp <? 128)%N then [byte cp]
  else if (cp <? 2048)%N then
    [byte (192 + cp / 64); byte (128 + cp mod 64)]
  else if (cp <? 65536)%N then
    [byte (224 + cp / 4096); byte (128 + (cp / 64) mod 64);
     byte (128 + cp mod 64)]
  else
    [byte (240 + cp / 262144); byte (128 + (cp / 4096) mod 64);
     byte (128 + (cp / 64) mod 64); byte (128 + cp mod 64)].

Definition is_high_surrogate (n : N) : bool := (55296 <=? n)%N && (n <=? 56319)%N.
Definition is_low_surrogate (n : N) : bool := (56320 <=? n)%N && (n <=? 57343)%N.

(** The character a one-letter escape stands for. *)
Definition simple_escape (e : ascii) : option ascii :=
  match e with
  | "034"%char => Some "034"%char
  | "092"%char => Some "092"%char
  | "/"%char => Some "/"%char
  | "b"%char => Some "008"%char
  | "f"%char => Some "012"%char
  | "n"%char => Some "010"%char
  | "r"%char => Some "013"%char
  | "t"%char => Some "009"%char
  | _ => None
  end.

(** [scanstring] with [strict=True], entered after the opening quote;
    [acc] holds the decoded bytes so far, last first. *)
Fixpoint scanstring (s : list ascii) (acc : list ascii)
  : option (string * list ascii) :=
  match s with
  | [] => None
  | c :: r =>
      if Ascii.eqb c dquote then Some (text_of (rev acc), r)
      else if Ascii.eqb c backslash then
        match r with
        | [] => None
        | e :: r1 =>
            match simple_escape e with
            | Some x => scanstring r1 (x :: acc)
            | None =>
                if Ascii.eqb e "u" then
                  match r1 with
                  | h1 :: h2 :: h3 :: h4 :: r2 =>
                      match hex4 h1 h2 h3 h4 with
                      | None => None
                      | Some u =>
                          let lone := scanstring r2 (rev (utf8 u) ++ acc)%list in
                          if is_high_surrogate u then
                            match r2 with
                            | b2 :: u2 :: l1 :: l2 :: l3 :: l4 :: r3 =>
                                if Ascii.eqb b2 backslash && Ascii.eqb u2 "u"
                                then
                                  match hex4 l1 l2 l3 l4 with
                                  | None => None
                                  | Some v =>
                                      if is_low_surrogate v then
                                        let cp := (65536 + (u - 55296) * 1024
                                                   + (v - 56320))%N in
                                        scanstring r3
                                          (rev (utf8 cp) ++ acc)%list
                                      else lone
                                  end
                                else lone
                            | _ => lone
                            end
                          else lone
                      end
                  | _ => None
                  end
                else None
            end
        end
      else if (code c <? 32)%N then None
      else scanstring r (c :: acc)
  end.

(** [scan_once], with the array and object loops.  [depth] bounds the
    nesting of calls; [loads] supplies more than any document needs. *)
Fixpoint scan_once (depth : nat) (s : list ascii) {struct depth}
  : option (value * list ascii) :=
  match depth with
  | O => None
  | S depth' =>
      match s with
      | [] => None
      | c :: r =>
          let literal (name : string) (v : value) :=
            match starts_with (chars name) s with
            | Some rest => Some (v, rest)
            | None => None
            end in
          if Ascii.eqb c dquote then
            match scanstring r [] with
            | Some (str, rest) => Some (JString str, rest)
            | None => None
            end
          else if Ascii.eqb c "{" then
            match expect "}" (skip_ws r) with
            | Some rest => Some (JObject [], rest)
            | None => parse_members depth' (skip_ws r) []
            end
          else if Ascii.eqb c "[" then
            match expect "]" (skip_ws r) with
            | Some rest => Some (JArray [], rest)
            | None => parse_items depth' (skip_ws r) []
            end
          else if Ascii.eqb c "n" then literal "null" JNull
          else if Ascii.eqb c "t" then literal "true" (JBool true)
          else if Ascii.eqb c "f" then literal "false" (JBool false)
          else if Ascii.eqb c "N" then literal "NaN" (JFloat "NaN")
          else if Ascii.eqb c "I" then literal "Infinity" (JFloat "Infinity")
          else if Ascii.eqb c "-" then
            match starts_with (chars "-Infinity") s with
            | Some rest => Some (JFloat "-Infinity", rest)
            | None => match_number s
            end
          else match_number s
      end
  end

(** The loop of [_parse_array], entered at the first character of an
    item; [acc] holds the items read so far, last first. *)
with parse_items (depth : nat) (s : list ascii) (acc : list value)
       {struct depth} : option (value * list ascii) :=
  match depth with
  | O => None
  | S depth' =>
      match scan_once depth' s with
      | None => None
      | Some (v, r) =>
          match expect "]" (skip_ws r) with
          | Some rest => Some (JArray (rev (v :: acc)), rest)
          | None =>
              match expect "," (skip_ws r) with
              | Some rest => parse_items depth' (skip_ws rest) (v :: acc)
              | None => None
              end
          end
      end
  end

(** The loop of [_parse_object], entered where a key must start; [acc]
    is the dictionary built so far. *)
with parse_members (depth : nat) (s : list ascii)
       (acc : list (string * value)) {struct depth}
       : option (value * list ascii) :=
  match depth with
  | O => None
  | S depth' =>
      match expect dquote s with
      | None => None
      | Some r =>
          match scanstring r [] with
          | None => None
          | Some (key, r1) =>
              match expect ":" (skip_ws r1) with
              | None => None
              | Some r2 =>
                  match scan_once depth' (skip_ws r2) with
                  | None => None
                  | Some (v, r3) =>
                      let acc' := dict_set key v acc in
                      match expect "}" (skip_ws r3) with
                      | Some rest => Some (JObject acc', rest)
                      | None =>
                          match expect "," (skip_ws r3) with
                          | Some rest =>
                              parse_members depth' (skip_ws rest) acc'
                          | None => None
                          end
                      end
                  end
              end
          end
      end
  end.

(** [json.loads(doc)]; [None] stands for raising [JSONDecodeError]. *)
Definition loads (doc : string) : option value :=
  let s := chars doc in
  match scan_once (2 * List.length s + 2) (skip_ws s) with
  | Some (v, rest) =>
      match skip_ws rest with
      | [] => Some v
      | _ :: _ => None
      end
  | None => None
  end.

End Json.

(** ** Tokenizer handles *)

(** The objects [load_openai_tokenizer] returns, by the methods
    [count_openai_tokens] looks up on them: a [tiktoken.Encoding] has
    [encode] only, a [GPT2TokenizerFast] has both [encode] and [tokenize].
    Both methods are functions of the text, and may raise. *)
Inductive tokenizer : Type :=
| Encoding (encode : string -> result (list Z))
| GPT2TokenizerFast (encode : string -> result (list Z))
                    (tokenize : string -> result (list string)).

(** Attribute lookup [tokenizer.encode] and [tokenizer.tokenize]. *)
Definition getattr_encode (t : tokenizer)
  : result (string -> result (list Z)) :=
  match t with
  | Encoding encode => Ok encode
  | GPT2TokenizerFast encode _ => Ok encode
  end.

Definition getattr_tokenize (t : tokenizer)
  : result (string -> result (list string)) :=
  match t with
  | Encoding _ => Raise (AttributeError "tokenize")
  | GPT2TokenizerFast _ tokenize => Ok tokenize
  end.

(** [len(method(text))], with the exceptions of the call passed on. *)
Definition len_of {A : Type} (method : result (string -> result (list A)))
  (text : string) : result nat :=
  match method with
  | Raise e => Raise e
  | Ok f =>
      match f text with
      | Raise e => Raise e
      | Ok tokens => Ok (List.length tokens)
      end
  end.

(** [count_openai_tokens], lines 57-73. *)
Definition count_openai_tokens (text : string) (tokenizer : tokenizer)
  (use_tiktoken : bool) : result nat :=
  if use_tiktoken then len_of (getattr_encode tokenizer) text
  else len_of (getattr_tokenize tokenizer) text.

(** ** HTTP responses *)

(** What the code reads of a [requests.Response]. *)
Record Response : Type := mkResponse { status_code : Z; text : string }.

(** ** The outside world and the effects of the module *)

Inductive log_level : Type := DEBUG | WARNING.

Section World.

(** The state of everything outside the process: the HTTP endpoint, the
    clock, the caches and hubs the tokenizer libraries read. *)
Variable W : Type.

(** [Dict] headers, [Dict] payloads and timeouts are only handed on. *)
Variables Headers Payload Timeout : Type.

Record Request : Type := mkRequest {
  req_method : string;
  req_url : string;
  req_headers : Headers;
  req_data : string;
  req_timeout : Timeout
}.

(** What an observer of the process sees, in the order it happens. *)
Inductive event : Type :=
| EvRequest (request : Request) (reply : result Response)
| EvSleep (seconds : Z)
| EvLog (level : log_level) (message : string).

Record state : Type := mkState { world : W; trace : list event }.

(** A Python computation: it runs in a state, ends in a state, and either
    returns a value or raises. *)
Definition M (A : Type) : Type := state -> state * result A.

Definition ret {A : Type} (a : A) : M A := fun s => (s, Ok a).

Definition raise {A : Type} (e : exn) : M A := fun s => (s, Raise e).

Definition bind {A B : Type} (m : M A) (k : A -> M B) : M B :=
  fun s =>
    match m s with
    | (s', Ok a) => k a s'
    | (s', Raise e) => (s', Raise e)
    end.

(** An expression without effects that may raise. *)
Definition lift {A : Type} (r : result A) : M A := fun s => (s, r).

(** A call into the world that leaves no event of its own. *)
Definition call {A : Type} (f : W -> W * result A) : M A :=
  fun s =>
    let (w', r) := f (world s) in
    (mkState w' (trace s), r).

Definition emit (e : event) : M unit :=
  fun s => (mkState (world s) (trace s ++ [e])%list, Ok tt).

(** [try: body except cls: handler] *)
Definition try_except {A : Type} (body : M A) (cls : exn_class)
  (handler : M A) : M A :=
  fun s =>
    match body s with
    | (s', Ok a) => (s', Ok a)
    | (s', Raise e) => if isinstance e cls then handler s' else (s', Raise e)
    end.

Definition logger_debug (message : string) : M unit :=
  emit (EvLog DEBUG message).

Definition logger_warning (message : string) : M unit :=
  emit (EvLog WARNING message).

Declare Scope py_scope.
Delimit Scope py_scope with py.
Notation "x <- m ;; k" := (bind m (fun x => k))
  (at level 100, m at next level, right associativity) : py_scope.
Notation "m ;; k" := (bind m (fun _ => k))
  (at level 100, right associativity) : py_scope.
Local Open Scope py_scope.

(** *** The collaborators *)

(** [requests.request(method, url, headers=, data=, timeout=)]: the
    transport answers with a response or raises. *)
Variable transport : Request -> W -> W * result Response.

(** The wait of the retry policy, [time.sleep(seconds)], as the world sees
    it. *)
Variable elapse : Z -> W -> W.

(** [json.dumps(payload)]. *)
Variable json_dumps : Payload -> result string.

(** The [tiktoken] package, when it can be imported: its
    [get_encoding]. *)
Variable tiktoken : option (string -> W -> W * result tokenizer).

(** [GPT2TokenizerFast.from_pretrained]. *)
Variable from_pretrained : string -> W -> W * result tokenizer.

(** The constants of [chatgpt_memory.environment]. *)
Variable OPENAI_BACKOFF : Z.
Variable OPENAI_MAX_RETRIES : nat.
Variable OPENAI_TIMEOUT : Timeout.

Definition requests_request (method url : string) (headers : Headers)
  (data : string) (timeout : Timeout) : M Response :=
  fun s =>
    let request := mkRequest method url headers data timeout in
    let (w', reply) := transport request (world s) in
    (mkState w' (trace s ++ [EvRequest request reply])%list, reply).

Definition time_sleep (seconds : Z) : M unit :=
  fun s =>
    (mkState (elapse seconds (world s)) (trace s ++ [EvSleep seconds])%list,
     Ok tt).

Definition json_loads (doc : string) : M Json.value :=
  match Json.loads doc with
  | Some v => ret v
  | None => raise (JSONDecodeError doc)
  end.

(** [import tiktoken] *)
Definition import_tiktoken : M (string -> W -> W * result tokenizer) :=
  match tiktoken with
  | Some get_encoding => ret get_encoding
  | None => raise (ModuleNotFoundError "tiktoken")
  end.

(** *** [load_openai_tokenizer], lines 16-54 *)

Definition load_openai_tokenizer (tokenizer_name : string)
  (use_tiktoken : bool) : M tokenizer :=
  if use_tiktoken then
    try_except
      (get_encoding <- import_tiktoken ;;
       logger_debug ("Using tiktoken " ++ tokenizer_name ++ " tokenizer") ;;
       call (get_encoding tokenizer_name))
      cImportError
      (raise (ImportError ["The `tiktoken` package not found.";
                           "To install it use the following:";
                           "`pip install tiktoken`"]))
  else
    logger_warning
      ("OpenAI tiktoken module is not available for Python < 3.8,Linux ARM64 and "
       ++ "AARCH64. Falling back to GPT2TokenizerFast.") ;;
    logger_debug "Using GPT2TokenizerFast tokenizer" ;;
    call (from_pretrained tokenizer_name).

(** *** One attempt: the body of [openai_request], lines 105-123 *)

Definition openai_request_attempt (url : string) (headers : Headers)
  (payload : Payload) (timeout : option Timeout) : M Json.value :=
  let timeout := match timeout with Some t => t | None => OPENAI_TIMEOUT end in
  data <- lift (json_dumps payload) ;;
  response <- requests_request "POST" url headers data timeout ;;
  res <- json_loads (text response) ;;
  if negb (status_code response =? 200)%Z then
    let openai_error :=
      if (status_code response =? 429)%Z then
        OpenAIRateLimitError ("API rate limit exceeded: " ++ text response)
      else
        OpenAIError
          ("OpenAI returned an error." ++ newline
           ++ "Status code: " ++ str_int (status_code response) ++ newline
           ++ "Response body: " ++ text response)
          (status_code response) in
    raise openai_error
  else ret res.

(** *** The retry policy *)

(** Modelled from the spec: the decorator [retry_with_exponential_backoff]
    of [chatgpt_memory.utils.reflection] is imported on line 11 and its
    source is not part of the module.  The specification (4.2, outer
    layer) gives: a policy parameterised by the retryable failure kinds
    [errors], the base delay [backoff_in_seconds] and the number of
    attempts [max_retries], wrapping any single-attempt operation; the
    state machine [ATTEMPTING -> SUCCESS | CLASSIFIED_FAILURE ->
    (attempts remaining ? WAIT -> ATTEMPTING : FAILED) |
    UNCLASSIFIED_FAILURE -> FAILED]; attempt [i], counted from 0, waits
    [backoff_in_seconds * 2^i] before the next attempt; after the last
    attempt the last classified failure is the outcome.  Jitter, which
    the specification leaves optional, is not added.

    [attempt_from remaining i] is the state [ATTEMPTING] at attempt [i]
    with [remaining] attempts left after it. *)
Fixpoint attempt_from {A : Type} (backoff_in_seconds : Z)
  (errors : list exn_class) (function : M A) (remaining i : nat) : M A :=
  fun s =>
    match function s with
    | (s', Ok a) => (s', Ok a)
    | (s', Raise e) =>
        if catches errors e then
          match remaining with
          | O => (s', Raise e)
          | S remaining' =>
              (time_sleep (backoff_in_seconds * 2 ^ Z.of_nat i) ;;
               attempt_from backoff_in_seconds errors function
                 remaining' (S i)) s'
          end
        else (s', Raise e)
    end.

(** Modelled from the spec: see [attempt_from].  A call starts in
    [ATTEMPTING], so one attempt is made even when [max_retries] is 0. *)
Definition retry_with_exponential_backoff {A : Type}
  (backoff_in_seconds : Z) (max_retries : nat) (errors : list exn_class)
  (function : M A) : M A :=
  attempt_from backoff_in_seconds errors function (max_retries - 1) 0.

(** Modelled from the spec: the state machine of one call (4.2), read as
    a transition relation.  The states carry the index of the attempt, the
    failure at hand and the state of the world; [max_attempts] is the
    attempt ceiling, and attempts remain after attempt [i] when
    [i + 1 < max_attempts]. *)
Inductive phase (A : Type) : Type :=
| ATTEMPTING (i : nat) (s : state)
| CLASSIFIED_FAILURE (i : nat) (e : exn) (s : state)
| UNCLASSIFIED_FAILURE (e : exn) (s : state)
| WAIT (i : nat) (s : state)
| SUCCESS (a : A) (s : state)
| FAILED (e : exn) (s : state).

Inductive step {A : Type} (base_delay : Z) (max_attempts : nat)
  (errors : list exn_class) (function : M A) : phase A -> phase A -> Prop :=
| step_success i s s' a :
    function s = (s', Ok a) ->
    step base_delay max_attempts errors function
      (ATTEMPTING A i s) (SUCCESS A a s')
| step_classified i s s' e :
    function s = (s', Raise e) -> catches errors e = true ->
    step base_delay max_attempts errors function
      (ATTEMPTING A i s) (CLASSIFIED_FAILURE A i e s')
| step_unclassified i s s' e :
    function s = (s', Raise e) -> catches errors e = false ->
    step base_delay max_attempts errors function
      (ATTEMPTING A i s) (UNCLASSIFIED_FAILURE A e s')
| step_fatal e s :
    step base_delay max_attempts errors function
      (UNCLASSIFIED_FAILURE A e s) (FAILED A e s)
| step_remaining i e s :
    S i < max_attempts ->
    step base_delay max_attempts errors function
      (CLASSIFIED_FAILURE A i e s) (WAIT A i s)
| step_exhausted i e s :
    ~ S i < max_attempts ->
    step base_delay max_attempts errors function
      (CLASSIFIED_FAILURE A i e s) (FAILED A e s)
| step_wait i s :
    step base_delay max_attempts errors function
      (WAIT A i s)
      (ATTEMPTING A (S i)
         (fst (time_sleep (base_delay * 2 ^ Z.of_nat i) s))).

(** Some number of transitions. *)
Inductive steps {A : Type} (base_delay : Z) (max_attempts : nat)
  (errors : list exn_class) (function : M A) : phase A -> phase A -> Prop :=
| steps_done p : steps base_delay max_attempts errors function p p
| steps_more p q r :
    step base_delay max_attempts errors function p q ->
    steps base_delay max_attempts errors function q r ->
    steps base_delay max_attempts errors function p r.

(** The terminal state that stands for the outcome of a call. *)
Definition terminal {A : Type} (run : state * result A) : phase A :=
  match run with
  | (s, Ok a) => SUCCESS A a s
  | (s, Raise e) => FAILED A e s
  end.

(** The terminal states. *)
Definition halted {A : Type} (p : phase A) : Prop :=
  match p with
  | SUCCESS _ _ _ | FAILED _ _ _ => True
  | _ => False
  end.

(** *** [openai_request], lines 76-86: the decorated function *)

Definition openai_errors : list exn_class :=
  [cOpenAIRateLimitError; cOpenAIError].

Definition openai_request (url : string) (headers : Headers)
  (payload : Payload) (timeout : option Timeout) : M Json.value :=
  retry_with_exponential_backoff OPENAI_BACKOFF OPENAI_MAX_RETRIES
    openai_errors
    (openai_request_attempt url headers payload timeout).

(** *** Reading a trace *)

(** The waits of a trace, in order. *)
Fixpoint sleeps (tr : list event) : list Z :=
  match tr with
  | [] => []
  | EvSleep d :: tr' => d :: sleeps tr'
  | _ :: tr' => sleeps tr'
  end.

(** The replies of the transport in a trace, in order: one per call. *)
Fixpoint replies (tr : list event) : list (result Response) :=
  match tr with
  | [] => []
  | EvRequest _ reply :: tr' => reply :: replies tr'
  | _ :: tr' => replies tr'
  end.

(** The number of transport calls of a trace. *)
Definition calls (tr : list event) : nat := List.length (replies tr).

(** What one attempt makes of the transport's reply: lines 106-123 as a
    function of the response. *)
Definition conclude (reply : result Response) : result Json.value :=
  match reply with
  | Raise e => Raise e
  | Ok response =>
      match Json.loads (text response) with
      | None => Raise (JSONDecodeError (text response))
      | Some res =>
          if (status_code response =? 200)%Z then Ok res
          else if (status_code response =? 429)%Z then
            Raise (OpenAIRateLimitError
                     ("API rate limit exceeded: " ++ text response))
          else
            Raise (OpenAIError
                     ("OpenAI returned an error." ++ newline
                      ++ "Status code: " ++ str_int (status_code response)
                      ++ newline
                      ++ "Response body: " ++ text response)
                     (status_code response))
      end
  end.

(** The request an attempt sends, line 105. *)
Definition post_request (url : string) (headers : Headers) (data : string)
  (timeout : option Timeout) : Request :=
  mkRequest "POST" url headers data
    (match timeout with Some t => t | None => OPENAI_TIMEOUT end).

(** An outcome that the policy answers with another attempt, if one is
    left. *)
Definition retryable {A : Type} (errors : list exn_class) (out : result A)
  : bool :=
  match out with
  | Raise e => catches errors e
  | Ok _ => false
  end.

(** The events of a run of [openai_request] in which the transport gave
    the replies [rs]: every call but the last is followed by the wait
    that belongs to its index. *)
Fixpoint schedule (request : Request) (backoff_in_seconds : Z) (i : nat)
  (rs : list (result Response)) : list event :=
  match rs with
  | [] => []
  | r :: rest =>
      EvRequest request r
      :: match rest with
         | [] => []
         | _ :: _ =>
             EvSleep (backoff_in_seconds * 2 ^ Z.of_nat i)
             :: schedule request backoff_in_seconds (S i) rest
         end
  end.

(** The waits of the policy before attempts [1 .. n]. *)
Definition backoff_waits (backoff_in_seconds : Z) (n : nat) : list Z :=
  map (fun i => (backoff_in_seconds * 2 ^ Z.of_nat i)%Z) (seq 0 n).

End World.

Arguments mkRequest {Headers Timeout}.
Arguments req_method {Headers Timeout}.
Arguments req_url {Headers Timeout}.
Arguments req_headers {Headers Timeout}.
Arguments req_data {Headers Timeout}.
Arguments req_timeout {Headers Timeout}.
Arguments EvRequest {Headers Timeout}.
Arguments EvSleep {Headers Timeout}.
Arguments EvLog {Headers Timeout}.
Arguments mkState {W Headers Timeout}.
Arguments world {W Headers Timeout}.
Arguments trace {W Headers Timeout}.
Arguments ret {W Headers Timeout A}.
Arguments raise {W Headers Timeout A}.
Arguments bind {W Headers Timeout A B}.
Arguments lift {W Headers Timeout A}.
Arguments call {W Headers Timeout A}.
Arguments emit {W Headers Timeout}.
Arguments try_except {W Headers Timeout A}.
Arguments logger_debug {W Headers Timeout}.
Arguments logger_warning {W Headers Timeout}.
Arguments requests_request {W Headers Timeout}.
Arguments time_sleep {W Headers Timeout}.
Arguments json_loads {W Headers Timeout}.
Arguments import_tiktoken {W Headers Timeout}.
Arguments load_openai_tokenizer {W Headers Timeout}.
Arguments openai_request_attempt {W Headers Payload Timeout}.
Arguments attempt_from {W Headers Timeout} elapse {A}.
Arguments retry_with_exponential_backoff {W Headers Timeout} elapse {A}.
Arguments openai_request {W Headers Payload Timeout}.
Arguments ATTEMPTING {W Headers Timeout A}.
Arguments CLASSIFIED_FAILURE {W Headers Timeout A}.
Arguments UNCLASSIFIED_FAILURE {W Headers Timeout A}.
Arguments WAIT {W Headers Timeout A}.
Arguments SUCCESS {W Headers Timeout A}.
Arguments FAILED {W Headers Timeout A}.
Arguments step {W Headers Timeout} elapse {A}.
Arguments steps {W Headers Timeout} elapse {A}.
Arguments terminal {W Headers Timeout A}.
Arguments halted {W Headers Timeout A}.
Arguments sleeps {Headers Timeout}.
Arguments replies {Headers Timeout}.
Arguments calls {Headers Timeout}.
Arguments schedule {Headers Timeout}.
Arguments post_request {Headers Timeout}.

(** ** [get_prompt], lines 126-163 *)

Definition quote : string := String Json.dquote "".

Definition prompt_paragraph_1 : string :=
  " You are an AI Assistant designed to intelligently generate"
  ++ " content for a wide variety of tasks, with a focus on sales and"
  ++ " marketing materials. Your main task is to provide users with"
  ++ " high-quality content based on your extensive knowledge base"
  ++ " and understanding of various writing styles.".

Definition prompt_paragraph_2 : string :=
  "Incorporate Context: When given context or reference material,"
  ++ " utilize it effectively to generate content that aligns with"
  ++ " the user's needs. Pay special attention to any context that"
  ++ " provides examples of preferred writing style and tone. For"
  ++ " instance, if you are asked to generate content related to"
  ++ " VNTANA, remember that it is a 3D Infrastructure Platform"
  ++ " designed to optimize, convert, and distribute 3D assets for"
  ++ " use in various channels. The platform is used by brands,"
  ++ " retailers, and technology platforms to create immersive 3D and"
  ++ " AR experiences, streamline 3D workflows, and integrate 3D"
  ++ " capabilities into existing infrastructure.".

Definition prompt_paragraph_3 : string :=
  "Adapt to Writing Styles: Be flexible in adopting different"
  ++ " writing styles as desired by the user, such as emulating a"
  ++ " specific person's style or following principles for selling"
  ++ " and persuasion. Ensure that your generated content maintains"
  ++ " the desired tone, format, and structure.".

Definition prompt_paragraph_4 : string :=
  "Core Message and Key Points: Keep in mind the core message and"
  ++ " key points you need to convey in your generated content. Focus"
  ++ " on addressing the user's main objectives and make sure the"
  ++ " content is aligned with their goals. For example, if the"
  ++ " user's goal is to highlight the benefits of VNTANA's platform,"
  ++ " emphasize its ability to automatically optimize 3D models,"
  ++ " connect all tools in a 3D workflow, and make 3D accessible to"
  ++ " every part of a business.".

Definition prompt_paragraph_5 : string :=
  "Wide Variety of Tasks: Be prepared to assist users with various"
  ++ " tasks, ranging from email replies to creating sales and"
  ++ " marketing materials. Use your knowledge base to provide"
  ++ " targeted and relevant content for each specific task.".

Definition prompt_paragraph_6 : string :=
  "Generate Content Efficiently: Produce high-quality content that"
  ++ " is concise, informative, and impactful. Ensure that your"
  ++ " writing is clear, well-structured, and persuasive to help"
  ++ " users achieve their desired outcomes.".

Definition prompt_paragraph_7 : string :=
  "Remember, the overall purpose is to support users by generating"
  ++ " content that effectively addresses their needs and objectives"
  ++ " across a wide variety of tasks.".

Definition prompt_paragraph_8 : string :=
  "If the AI Assistant does not know the answer to a question, it"
  ++ " truthfully says it does not know. The AI Assisaant ONLY uses"
  ++ " information contained in the " ++ quote ++ "Relevant Information" ++ quote ++ " section"
  ++ " and does not hallucinate.".

(** The fixed text of the template, up to the line of the history. *)
Definition prompt_instructions : string :=
  prompt_paragraph_1
  ++ newline ++ newline ++ prompt_paragraph_2
  ++ newline ++ newline ++ prompt_paragraph_3
  ++ newline ++ newline ++ prompt_paragraph_4
  ++ newline ++ newline ++ prompt_paragraph_5
  ++ newline ++ newline ++ prompt_paragraph_6
  ++ newline ++ newline ++ prompt_paragraph_7
  ++ newline ++ newline ++ prompt_paragraph_8
  ++ newline ++ newline.

Definition get_prompt (message history : string) : string :=
  let prompt :=
    prompt_instructions
    ++ "    " ++ history ++ newline
    ++ "    Human: " ++ message ++ newline
    ++ "    Assistant:" in
  prompt.

(** ** A scripted transport

    The transport of the test scenarios: it answers the calls with the
    replies of a script, one after the other, whatever the request and
    however long the caller waited; once the script is used up the
    connection fails. *)

Module Mock.

Definition World : Type := list (result Response).
Definition Headers : Type := list (string * string).
Definition Payload : Type := Json.value.
Definition Timeout : Type := Z.

Definition transport (request : Request Headers Timeout) (w : World)
  : World * result Response :=
  match w with
  | reply :: rest => (rest, reply)
  | [] => ([], Raise (Builtin "ConnectionError" []))
  end.

Definition elapse (seconds : Z) (w : World) : World := w.

(** Payloads of the scenarios are serialisable; what is sent does not
    matter to the script. *)
Definition json_dumps (payload : Payload) : result string := Ok "{}".

Definition start (script : World) : state World Headers Timeout :=
  mkState script [].

Definition url : string := "https://api.openai.com/v1/embeddings".

Definition headers : Headers := [("Content-Type", "application/json")].

(** [send max_attempts base_delay script]: one call of [openai_request]
    against the script, from an empty trace. *)
Definition send (max_attempts : nat) (base_delay : Z) (script : World)
  : state World Headers Timeout * result Json.value :=
  openai_request transport elapse json_dumps base_delay max_attempts 30%Z
    url headers (Json.JObject []) None (start script).

(** One attempt against the script, from an empty trace. *)
Definition attempt (script : World)
  : state World Headers Timeout * result Json.value :=
  openai_request_attempt transport json_dumps 30%Z url headers
    (Json.JObject []) None (start script).

(** The request the scenarios send. *)
Definition request : Request Headers Timeout :=
  post_request 30%Z url headers "{}" None.

(** A transport that answers every call with the same response; its world
    is the number of calls answered. *)
Definition always (response : Response) (request : Request Headers Timeout)
  (answered : nat) : nat * result Response :=
  (S answered, Ok response).

Definition body_ok : string :=
  "{" ++ quote ++ "data" ++ quote ++ ": [1, 2, 3]}".

Definition body_error : string :=
  "{" ++ quote ++ "error" ++ quote ++ ": {" ++ quote ++ "message" ++ quote
  ++ ": " ++ quote ++ "slow down" ++ quote ++ "}}".

Definition r200 : Response := mkResponse 200 body_ok.
Definition r429 : Response := mkResponse 429 body_error.
Definition r500 : Response := mkResponse 500 body_error.

(** A gateway answering with a page that is not JSON. *)
Definition r502_html : Response := mkResponse 502 "<html>Bad Gateway</html>".
Definition r429_text : Response := mkResponse 429 "Too Many Requests".

(** Toy tokenizers: one token per byte, and one token per line. *)
Definition byte_encode (text : string) : result (list Z) :=
  Ok (map (fun c => Z.of_N (N_of_ascii c)) (list_ascii_of_string text)).

Definition byte_tokenize (text : string) : result (list string) :=
  Ok (map (fun c => String c "") (list_ascii_of_string text)).

Definition fast : tokenizer := Encoding byte_encode.
Definition fallback : tokenizer := GPT2TokenizerFast byte_encode byte_tokenize.

End Mock.

(** ** [EmbeddingModels] and [EmbeddingConfig],
    chatgpt_memory/llm_client/openai/embedding/config.py *)

Module Embedding.

(** The members of the enumeration, in the order of their definition. *)
Inductive EmbeddingModels : Type := ada | ada_002 | babbage | curie | davinci.

(** [member.value] *)
Definition value (m : EmbeddingModels) : string :=
  match m with
  | ada => "*-ada-*-002"
  | ada_002 => "text-embedding-ada-002"
  | babbage => "*-babbage-*-001"
  | curie => "*-curie-*-001"
  | davinci => "*-davinci-*-001"
  end.

Definition members : list EmbeddingModels :=
  [ada; ada_002; babbage; curie; davinci].

(** [EmbeddingModels(v)]: the first member, in definition order, whose
    value is [v]; a [ValueError] when there is none (its message is not
    modelled). *)
Definition lookup (v : string) : result EmbeddingModels :=
  match find (fun m => String.eqb (value m) v) members with
  | Some m => Ok m
  | None => Raise (Builtin "ValueError" [])
  end.

(** The fields that [EmbeddingConfig] declares, lines 15-21; those it
    inherits from [LLMClientConfig] are left out. *)
Record EmbeddingConfig : Type := mkEmbeddingConfig {
  url : string;
  batch_size : Z;
  progress_bar : bool;
  model : string;
  max_seq_len : Z;
  use_tiktoken : bool
}.

(** The class defaults. *)
Definition defaults : EmbeddingConfig :=
  mkEmbeddingConfig "https://api.openai.com/v1/embeddings" 128 false
    (value ada_002) 8191 false.

End Embedding.

(** ** A scripted tokenizer library

    The world counts the lookups made.  One encoding is known; asking for
    the name [needs-regex] fails on an import inside the library, any other
    name is unknown. *)

Module MockHub.

Definition get_encoding (name : string) (lookups : nat)
  : nat * result tokenizer :=
  if String.eqb name "cl100k_base" then (S lookups, Ok Mock.fast)
  else if String.eqb name "needs-regex" then
    (S lookups, Raise (ModuleNotFoundError "regex"))
  else (S lookups, Raise (Builtin "ValueError" ["Unknown encoding"])).

Definition from_pretrained (name : string) (lookups : nat)
  : nat * result tokenizer :=
  (S lookups, Ok Mock.fallback).

Definition start : state nat Mock.Headers Mock.Timeout := mkState 0 [].

End MockHub.

(** ** A serialiser that can fail

    Payloads that are either a document ready to send or an object that
    [json.dumps] refuses. *)

Module MockSerial.

Definition Payload : Type := option string.

Definition json_dumps (payload : Payload) : result string :=
  match payload with
  | Some data => Ok data
  | None =>
      Raise (Builtin "TypeError"
               ["Object of type set is not JSON serializable"])
  end.

(** One attempt against a script, with a timeout of 5 given or not. *)
Definition attempt (payload : Payload) (timeout : option Z)
  (script : Mock.World)
  : state Mock.World Mock.Headers Mock.Timeout * result Json.value :=
  openai_request_attempt Mock.transport json_dumps 30%Z Mock.url
    Mock.headers payload timeout (Mock.start script).

End MockSerial.

(** ** Tokenizers that close every text with a special token

    Backends configured to add an end-of-text token: the encoding of a text
    is that of its bytes followed by the token, also for the empty text. *)

Module MockSpecial.

Definition eot_encode (text : string) : result (list Z) :=
  match Mock.byte_encode text with
  | Ok ids => Ok (ids ++ [50256%Z])%list
  | Raise e => Raise e
  end.

Definition eot_tokenize (text : string) : result (list string) :=
  match Mock.byte_tokenize text with
  | Ok tokens => Ok (tokens ++ ["<|endoftext|>"])%list
  | Raise e => Raise e
  end.

Definition fast : tokenizer := Encoding eot_encode.
Definition fallback : tokenizer := GPT2TokenizerFast eot_encode eot_tokenize.

End MockSpecial.

(** * Properties *)

(** ** Strings *)

Lemma append_assoc (a b c : string) : (a ++ b) ++ c = a ++ b ++ c.
Proof.
  induction a as [|x a IH]; simpl; [reflexivity | now rewrite IH].
Qed.

Lemma contains_here (before needle after : string) :
  contains (before ++ needle ++ after) needle.
Proof. now exists before, after. Qed.

Lemma contains_suffix (before needle : string) :
  contains (before ++ needle) needle.
Proof.
  exists before, "". f_equal.
  induction needle as [|x n IH]; simpl; [reflexivity | now rewrite <- IH].
Qed.

Lemma contains_after (before s needle : string) :
  contains s needle -> contains (before ++ s) needle.
Proof.
  intros [x [y ->]]. exists (before ++ x), y. now rewrite append_assoc.
Qed.

(** ** The decoder

    What a successful parse leaves is shorter than what it was given, and
    the depth [Json.loads] supplies is enough for every document. *)

Module JsonFacts.
Import Json.
Local Open Scope list_scope.

Lemma skip_ws_length (s : list ascii) :
  List.length (skip_ws s) <= List.length s.
Proof.
  induction s as [|c r IH]; cbn [skip_ws List.length]; [lia|].
  destruct (is_ws c); cbn [List.length]; lia.
Qed.

Lemma expect_length (c : ascii) (s r : list ascii) :
  expect c s = Some r -> List.length s = S (List.length r).
Proof.
  destruct s as [|x s]; cbn [expect]; [discriminate|].
  destruct (Ascii.eqb x c); [|discriminate].
  now intros [= ->].
Qed.

Lemma span_digits_length (s : list ascii) :
  List.length (snd (span_digits s)) <= List.length s.
Proof.
  induction s as [|c r IH]; cbn [span_digits]; [cbn; lia|].
  destruct (is_digit c); [|cbn; lia].
  destruct (span_digits r) as [ds r']. cbn [snd List.length] in *. lia.
Qed.

Lemma starts_with_length (p s r : list ascii) :
  starts_with p s = Some r ->
  List.length s = List.length p + List.length r.
Proof.
  revert s. induction p as [|a p IH]; intros s; cbn [starts_with].
  - now intros [= ->].
  - destruct s as [|b s]; [discriminate|].
    destruct (Ascii.eqb a b); [|discriminate].
    intros H. apply IH in H. cbn [List.length]. lia.
Qed.

(** The innermost term that the head of [t] analyses. *)
Ltac scrutinee t :=
  lazymatch t with
  | match ?x with _ => _ end => scrutinee x
  | _ => t
  end.

(** One case analysis at the head of the left-hand side of [H], with the
    length of what a successful sub-parse leaves recorded. *)
Ltac head_case H :=
  lazymatch type of H with
  | match ?x0 with _ => _ end = _ =>
      let x := scrutinee x0 in
      let E := fresh "E" in
      lazymatch x with
      | expect _ _ => destruct x as [?|] eqn:E; [apply expect_length in E|]
      | span_digits ?s =>
          pose proof (span_digits_length s) as E;
          destruct x as [? ?]; cbn [snd] in E
      | starts_with _ _ =>
          destruct x as [?|] eqn:E; [apply starts_with_length in E|]
      | _ => destruct x eqn:E
      end
  end.

Lemma match_number_consumes (s : list ascii) (v : value) (r : list ascii) :
  match_number s = Some (v, r) -> List.length r < List.length s.
Proof.
  unfold match_number. intros H.
  repeat head_case H; try discriminate;
    injection H as <- <-; cbn [List.length] in *; lia.
Qed.

Lemma scanstring_consumes (n : nat) :
  forall (s acc : list ascii) (str : string) (rest : list ascii),
    List.length s <= n ->
    scanstring s acc = Some (str, rest) ->
    List.length rest < List.length s.
Proof.
  induction n as [|n IH]; intros s acc str rest Hn H;
    (destruct s as [|c r]; [discriminate|]); cbn [List.length] in Hn;
    [lia|].
  cbn [scanstring] in H. cbv zeta in H.
  repeat head_case H; try discriminate;
    try (injection H as <- <-); try (apply IH in H);
    subst; cbn [List.length] in *; lia.
Qed.

Ltac note_skips :=
  repeat match goal with
    | H : context [skip_ws ?x] |- _ =>
        lazymatch goal with
        | _ : List.length (skip_ws x) <= List.length x |- _ => fail
        | _ => pose proof (skip_ws_length x)
        end
    end.

Lemma scan_consumes (depth : nat) :
  (forall s v rest,
      scan_once depth s = Some (v, rest) ->
      List.length rest < List.length s)
  /\ (forall s acc v rest,
        parse_items depth s acc = Some (v, rest) ->
        List.length rest < List.length s)
  /\ (forall s acc v rest,
        parse_members depth s acc = Some (v, rest) ->
        List.length rest < List.length s).
Proof.
  induction depth as [|depth (IHscan & IHitems & IHmembers)];
    [repeat split; discriminate|].
  split; [|split].
  - intros s v rest H. destruct s as [|c r]; [discriminate|].
    cbn [scan_once] in H. cbv zeta in H.
    repeat head_case H; try discriminate;
      try (injection H as <- <-);
      try (apply match_number_consumes in H);
      try (apply IHitems in H); try (apply IHmembers in H);
      try match goal with
        | E : scanstring _ _ = Some _ |- _ =>
            apply (scanstring_consumes _ _ _ _ _ (le_n _)) in E
        end;
      note_skips; cbn [List.length chars list_ascii_of_string] in *; lia.
  - intros s acc v rest H. cbn [parse_items] in H.
    destruct (scan_once depth s) as [[v0 r]|] eqn:Hv; [|discriminate].
    apply IHscan in Hv.
    repeat head_case H; try discriminate;
      try (injection H as <- <-); try (apply IHitems in H);
      note_skips; cbn [List.length] in *; lia.
  - intros s acc v rest H. cbn [parse_members] in H.
    destruct (expect dquote s) as [r|] eqn:Hq; [|discriminate].
    apply expect_length in Hq.
    destruct (scanstring r []) as [[key r1]|] eqn:Hkey; [|discriminate].
    apply (scanstring_consumes _ _ _ _ _ (le_n _)) in Hkey.
    destruct (expect ":" (skip_ws r1)) as [r2|] eqn:Hcolon; [|discriminate].
    apply expect_length in Hcolon.
    destruct (scan_once depth (skip_ws r2)) as [[v0 r3]|] eqn:Hv;
      [|discriminate].
    apply IHscan in Hv. cbv zeta in H.
    repeat head_case H; try discriminate;
      try (injection H as <- <-); try (apply IHmembers in H);
      note_skips; cbn [List.length] in *; lia.
Qed.

(** The same analysis on a goal [lhs = _ -> _]. *)
Ltac goal_case :=
  lazymatch goal with
  | |- match ?x0 with _ => _ end = _ -> _ =>
      let x := scrutinee x0 in
      let E := fresh "E" in
      lazymatch x with
      | expect _ _ => destruct x as [?|] eqn:E; [apply expect_length in E|]
      | _ => destruct x eqn:E
      end
  end.

(** A parse that succeeds at some depth succeeds, with the same result, at
    every depth from a bound linear in the length of the input. *)
Lemma scan_enough (depth : nat) :
  (forall s res d',
      scan_once depth s = Some res ->
      2 * List.length s + 2 <= d' ->
      scan_once d' s = Some res)
  /\ (forall s acc res d',
        parse_items depth s acc = Some res ->
        2 * List.length s + 3 <= d' ->
        parse_items d' s acc = Some res)
  /\ (forall s acc res d',
        parse_members depth s acc = Some res ->
        2 * List.length s + 1 <= d' ->
        parse_members d' s acc = Some res).
Proof.
  induction depth as [|depth (IHscan & IHitems & IHmembers)];
    [repeat split; discriminate|].
  pose proof (scan_consumes depth) as (Cscan & _ & _).
  split; [|split].
  - intros s res d' H Hd. destruct d' as [|d']; [lia|].
    destruct s as [|c r]; [discriminate|].
    revert H. cbn [scan_once]. cbv zeta. cbn [List.length] in Hd.
    pose proof (skip_ws_length r).
    repeat (first [ exact (fun H => H) | goal_case ]);
      try discriminate; intros Hrun;
      first [ apply IHitems | apply IHmembers ]; solve [ exact Hrun | lia ].
  - intros s acc res d' H Hd. destruct d' as [|d']; [lia|].
    revert H. cbn [parse_items].
    destruct (scan_once depth s) as [[v r]|] eqn:Hv; [|discriminate].
    rewrite (IHscan _ _ d' Hv) by lia. apply Cscan in Hv.
    pose proof (skip_ws_length r).
    repeat (first [ exact (fun H => H) | goal_case ]);
      try discriminate; intros Hrun.
    apply IHitems; [exact Hrun|].
    match goal with |- context [skip_ws ?x] => pose proof (skip_ws_length x) end.
    lia.
  - intros s acc res d' H Hd. destruct d' as [|d']; [lia|].
    revert H. cbn [parse_members].
    destruct (expect dquote s) as [r|] eqn:Hq; [|discriminate].
    apply expect_length in Hq.
    destruct (scanstring r []) as [[key r1]|] eqn:Hkey; [|discriminate].
    apply (scanstring_consumes _ _ _ _ _ (le_n _)) in Hkey.
    pose proof (skip_ws_length r1).
    destruct (expect ":" (skip_ws r1)) as [r2|] eqn:Hcolon; [|discriminate].
    apply expect_length in Hcolon.
    pose proof (skip_ws_length r2).
    destruct (scan_once depth (skip_ws r2)) as [[v r3]|] eqn:Hv;
      [|discriminate].
    rewrite (IHscan _ _ d' Hv) by lia. apply Cscan in Hv.
    pose proof (skip_ws_length r3). cbv zeta.
    repeat (first [ exact (fun H => H) | goal_case ]);
      try discriminate; intros Hrun.
    apply IHmembers; [exact Hrun|].
    match goal with |- context [skip_ws ?x] => pose proof (skip_ws_length x) end.
    lia.
Qed.

(** The depth that [loads] supplies is enough: it finds the document
    whenever some depth does. *)
Theorem loads_complete (doc : string) (v : value) :
  loads doc = Some v
  <-> exists depth rest,
        scan_once depth (skip_ws (chars doc)) = Some (v, rest)
        /\ skip_ws rest = [].
Proof.
  unfold loads. split.
  - destruct (scan_once _ _) as [[v' rest]|] eqn:Hscan; [|discriminate].
    destruct (skip_ws rest) eqn:Hrest; [|discriminate].
    intros [= ->]. eauto.
  - intros (depth & rest & Hscan & Hrest).
    destruct (scan_enough depth) as (Henough & _).
    pose proof (skip_ws_length (chars doc)).
    rewrite (Henough _ _ (2 * List.length (chars doc) + 2) Hscan) by lia.
    now rewrite Hrest.
Qed.

(** The decoder on small documents. *)
Example loads_rejects :
  map loads ["" ; "<html>Bad Gateway</html>"; "Too Many Requests"; "[1,]";
             "01"; "1."; "{,}"; "[1 2]"; "nul"; "{1: 2}"]
  = repeat None 10.
Proof. vm_compute. reflexivity. Qed.

Example loads_accepts :
  map loads [" 12 "; "-0"; "[1.5, 2e3, null, true, [[]]]"; "{ }"; "NaN"]
  = [Some (JInt 12); Some (JInt 0);
     Some (JArray [JFloat "1.5"; JFloat "2e3"; JNull; JBool true;
                   JArray [JArray []]]);
     Some (JObject []); Some (JFloat "NaN")].
Proof. vm_compute. reflexivity. Qed.

(** A repeated key keeps its first place and its last value. *)
Example loads_repeated_key :
  loads ("{" ++ quote ++ "a" ++ quote ++ ": 1, " ++ quote ++ "b" ++ quote
         ++ ": 2, " ++ quote ++ "a" ++ quote ++ ": 3}")%string
  = Some (JObject [("a"%string, JInt 3); ("b"%string, JInt 2)]).
Proof. vm_compute. reflexivity. Qed.

End JsonFacts.

(** ** The prompt *)

(** The template is transcribed in full: its fixed part has the length of
    the source text between the opening quotes and the line of the
    history. *)
Example prompt_instructions_length :
  String.length prompt_instructions = 2482.
Proof. vm_compute. reflexivity. Qed.

(** C10: for every message and history the prompt is the fixed
    instructions, then the history, then the line [Human: message], then
    [Assistant:] at the very end: it contains the history verbatim, later
    on [Human: ] followed by the message verbatim, and it ends with
    [Assistant:].  The result is given by one expression in
    [(message, history)], so equal arguments give equal prompts. *)
Theorem get_prompt_shape (message history : string) :
  get_prompt message history
  = prompt_instructions ++ "    " ++ history ++ newline
    ++ "    Human: " ++ message ++ newline ++ "    Assistant:"
  /\ (exists before between,
        get_prompt message history
        = before ++ history ++ between ++ ("Human: " ++ message)
          ++ newline ++ "    Assistant:")
  /\ endswith (get_prompt message history) "Assistant:"
  /\ (forall message' history',
        (message', history') = (message, history) ->
        get_prompt message' history' = get_prompt message history).
Proof.
  unfold get_prompt. split; [reflexivity|]. split; [|split].
  - exists (prompt_instructions ++ "    "), (newline ++ "    ").
    now rewrite !append_assoc.
  - exists (prompt_instructions ++ "    " ++ history ++ newline
            ++ "    Human: " ++ message ++ newline ++ "    ").
    now rewrite !append_assoc.
  - intros m h E. now inversion E.
Qed.

Lemma get_prompt_shape_witness :
  endswith (get_prompt "good, you?" "Human: hello") "Assistant:"
  /\ get_prompt "good, you?" "Human: hello"
     = get_prompt "good, you?" "Human: hello".
Proof.
  split.
  - exact (proj1 (proj2 (proj2
             (get_prompt_shape "good, you?" "Human: hello")))).
  - apply (proj2 (proj2 (proj2
             (get_prompt_shape "good, you?" "Human: hello")))).
    reflexivity.
Defined.

(** ** Counting tokens *)





(** ** Loading a tokenizer *)

Section LoadFacts.

Context {W Headers Timeout : Type}.
Variable from_pretrained : string -> W -> W * result tokenizer.

Local Abbreviation state := (state W Headers Timeout).

Lemma catches_openai_errors (e : exn) :
  catches openai_errors e = true
  <-> (exists message, e = OpenAIRateLimitError message)
      \/ (exists message status, e = OpenAIError message status).
Proof.
  split.
  - destruct e; simpl; try discriminate; eauto.
  - intros [[m ->] | [m [c ->]]]; reflexivity.
Qed.

(** C7: with [use_tiktoken] true and no [tiktoken] package, the loader
    raises the [ImportError] whose arguments name the package, at once:
    the world and the trace are left as they were, so no network call
    was made and nothing was waited for; and the failure is none that the
    retry policy of the module would catch, so that even under that
    policy it comes out of the first attempt without a wait. *)
Theorem load_openai_tokenizer_missing_tiktoken
  (tokenizer_name : string) (s : state) :
  let args :=
    ["The `tiktoken` package not found.";
     "To install it use the following:";
     "`pip install tiktoken`"] in
  load_openai_tokenizer None from_pretrained tokenizer_name true s
  = (s, Raise (ImportError args))
  /\ isinstance (ImportError args) cImportError = true
  /\ (exists arg, In arg args /\ contains arg "tiktoken")
  /\ catches openai_errors (ImportError args) = false
  /\ (forall (elapse : Z -> W -> W) (backoff : Z) (max_retries : nat),
        retry_with_exponential_backoff elapse backoff max_retries
          openai_errors
          (load_openai_tokenizer None from_pretrained tokenizer_name true) s
        = (s, Raise (ImportError args))).
Proof.
  cbv zeta. repeat split.
  - exists "The `tiktoken` package not found.". split; [now left|].
    exists "The `", "` package not found.". reflexivity.
  - intros elapse backoff max_retries.
    unfold retry_with_exponential_backoff.
    destruct (max_retries - 1); reflexivity.
Qed.

(** C9: with [use_tiktoken] false the loader logs its two messages and
    returns whatever [GPT2TokenizerFast.from_pretrained(tokenizer_name)]
    gives, a handle or an exception, in the world that call leaves; the
    [tiktoken] package is not looked at, so the outcome is the same
    whether or not it is installed. *)
Theorem load_openai_tokenizer_fallback
  (tiktoken : option (string -> W -> W * result tokenizer))
  (tokenizer_name : string) (s : state) :
  load_openai_tokenizer tiktoken from_pretrained tokenizer_name false s
  = (mkState (fst (from_pretrained tokenizer_name (world s)))
       (trace s
        ++ [EvLog WARNING
              ("OpenAI tiktoken module is not available for Python < 3.8,"
               ++ "Linux ARM64 and AARCH64. "
               ++ "Falling back to GPT2TokenizerFast.");
            EvLog DEBUG "Using GPT2TokenizerFast tokenizer"])%list,
     snd (from_pretrained tokenizer_name (world s)))
  /\ (forall tiktoken' : option (string -> W -> W * result tokenizer),
        load_openai_tokenizer tiktoken' from_pretrained tokenizer_name
          false s
        = load_openai_tokenizer tiktoken from_pretrained tokenizer_name
            false s).
Proof.
  split; [|reflexivity].
  unfold load_openai_tokenizer, bind, logger_warning, logger_debug, emit,
    call; simpl.
  destruct (from_pretrained tokenizer_name (world s)) as [w' r]; simpl.
  now rewrite <- app_assoc.
Qed.

End LoadFacts.

(** ** Reading traces *)

Section TraceFacts.

Context {Headers Timeout : Type}.

Local Abbreviation event := (event Headers Timeout).

Lemma sleeps_app (tr tr' : list event) :
  sleeps (tr ++ tr') = (sleeps tr ++ sleeps tr')%list.
Proof.
  induction tr as [|[req r|d|lvl m] tr IH]; simpl; congruence.
Qed.

Lemma replies_app (tr tr' : list event) :
  replies (tr ++ tr') = (replies tr ++ replies tr')%list.
Proof.
  induction tr as [|[req r|d|lvl m] tr IH]; simpl; congruence.
Qed.

Lemma calls_app (tr tr' : list event) :
  calls (tr ++ tr') = calls tr + calls tr'.
Proof. unfold calls. now rewrite replies_app, length_app. Qed.

Lemma schedule_cons (request : Request Headers Timeout) (b : Z) (i : nat)
  (r : result Response) (rest : list (result Response)) :
  rest <> [] ->
  schedule request b i (r :: rest)
  = EvRequest request r :: EvSleep (b * 2 ^ Z.of_nat i)
    :: schedule request b (S i) rest.
Proof. destruct rest; [congruence | reflexivity]. Qed.

Lemma replies_schedule (request : Request Headers Timeout) (b : Z)
  (rs : list (result Response)) :
  forall i, replies (schedule request b i rs) = rs.
Proof.
  induction rs as [|r rest IH]; intros i; [reflexivity|].
  destruct rest as [|r' rest]; [reflexivity|].
  rewrite schedule_cons by discriminate. cbn [replies].
  now rewrite IH.
Qed.

Lemma sleeps_schedule (request : Request Headers Timeout) (b : Z)
  (rs : list (result Response)) :
  forall i,
    sleeps (schedule request b i rs)
    = map (fun j => (b * 2 ^ Z.of_nat j)%Z) (seq i (List.length rs - 1)).
Proof.
  induction rs as [|r rest IH]; intros i; [reflexivity|].
  destruct rest as [|r' rest]; [reflexivity|].
  rewrite schedule_cons by discriminate. cbn [sleeps].
  rewrite IH. cbn [List.length Nat.sub seq map]. now rewrite Nat.sub_0_r.
Qed.

Lemma nth_backoff_waits (b : Z) (n j : nat) :
  j < n -> nth j (backoff_waits b n) 0%Z = (b * 2 ^ Z.of_nat j)%Z.
Proof.
  intros Hj. unfold backoff_waits.
  set (f := fun i : nat => (b * 2 ^ Z.of_nat i)%Z).
  rewrite (nth_indep (map f (seq 0 n)) 0%Z (f 0))
    by (rewrite length_map, length_seq; lia).
  rewrite (map_nth f), seq_nth by lia. reflexivity.
Qed.

(** Each wait of the policy is twice the one before it. *)
Lemma backoff_waits_double (b : Z) (n j : nat) :
  S j < n ->
  nth (S j) (backoff_waits b n) 0%Z = (2 * nth j (backoff_waits b n) 0)%Z.
Proof.
  intros Hj. rewrite !nth_backoff_waits by lia.
  rewrite Nat2Z.inj_succ, Z.pow_succ_r by lia. lia.
Qed.

End TraceFacts.

(** ** The retry policy *)

Section PolicyFacts.

Context {W Headers Timeout A : Type}.
Variable elapse : Z -> W -> W.
Variable base_delay : Z.
Variable max_attempts : nat.
Variable errors : list exn_class.
Variable function : M W Headers Timeout A.

Local Abbreviation state := (state W Headers Timeout).
Local Abbreviation step := (step elapse base_delay max_attempts errors function).
Local Abbreviation steps :=
  (steps elapse base_delay max_attempts errors function).

Lemma attempt_from_eq (remaining i : nat) (s : state) :
  attempt_from elapse base_delay errors function remaining i s
  = match function s with
    | (s', Ok a) => (s', Ok a)
    | (s', Raise e) =>
        if catches errors e then
          match remaining with
          | O => (s', Raise e)
          | S remaining' =>
              attempt_from elapse base_delay errors function remaining' (S i)
                (mkState (elapse (base_delay * 2 ^ Z.of_nat i) (world s'))
                   (trace s' ++ [EvSleep (base_delay * 2 ^ Z.of_nat i)])%list)
          end
        else (s', Raise e)
    end.
Proof. destruct remaining; reflexivity. Qed.

(** A failure that the policy does not catch ends the call at once,
    whatever the number of attempts left. *)
Lemma attempt_from_fatal (remaining i : nat) (s s' : state) (e : exn) :
  function s = (s', Raise e) -> catches errors e = false ->
  attempt_from elapse base_delay errors function remaining i s
  = (s', Raise e).
Proof. intros Hf He. now rewrite attempt_from_eq, Hf, He. Qed.

(** The policy runs the state machine: from attempt [i] with the attempts
    that the ceiling leaves after it, the machine reaches the terminal
    state of the policy's outcome. *)
Lemma attempt_from_steps (remaining : nat) :
  forall (i : nat) (s : state),
    remaining = max_attempts - 1 - i ->
    steps (ATTEMPTING i s)
      (terminal
         (attempt_from elapse base_delay errors function remaining i s)).
Proof.
  induction remaining as [|remaining IH]; intros i s Hleft;
    rewrite attempt_from_eq;
    destruct (function s) as [s' [a|e]] eqn:Hf.
  1, 3: eapply steps_more; [eapply step_success; exact Hf|apply steps_done].
  - destruct (catches errors e) eqn:He.
    + eapply steps_more; [eapply step_classified; [exact Hf|exact He]|].
      eapply steps_more; [apply step_exhausted; lia|apply steps_done].
    + eapply steps_more; [eapply step_unclassified; [exact Hf|exact He]|].
      eapply steps_more; [apply step_fatal|apply steps_done].
  - destruct (catches errors e) eqn:He.
    + eapply steps_more; [eapply step_classified; [exact Hf|exact He]|].
      eapply steps_more; [apply step_remaining; lia|].
      eapply steps_more; [apply step_wait|].
      apply IH. lia.
    + eapply steps_more; [eapply step_unclassified; [exact Hf|exact He]|].
      eapply steps_more; [apply step_fatal|apply steps_done].
Qed.

Lemma retry_steps (s : state) :
  steps (ATTEMPTING 0 s)
    (terminal
       (retry_with_exponential_backoff elapse base_delay max_attempts errors
          function s)).
Proof. apply attempt_from_steps. lia. Qed.

Lemma step_deterministic (p q q' : phase W Headers Timeout A) :
  step p q -> step p q' -> q = q'.
Proof.
  intros H H'. destruct H; inversion H'; subst; try congruence;
    try contradiction.
Qed.

Lemma halted_no_step (p q : phase W Headers Timeout A) :
  halted p -> step p q -> False.
Proof. intros Hp H. destruct H; exact Hp. Qed.

Lemma steps_halted_unique (p t t' : phase W Headers Timeout A) :
  steps p t -> steps p t' -> halted t -> halted t' -> t = t'.
Proof.
  intros H. revert t'. induction H as [p|p q r Hpq Hqr IH]; intros t' H' Ht Ht'.
  - destruct H' as [|p q r Hpq _]; [reflexivity|].
    destruct (halted_no_step _ _ Ht Hpq).
  - destruct H' as [p|p q' r' Hpq' Hqr'].
    + destruct (halted_no_step _ _ Ht' Hpq).
    + rewrite <- (step_deterministic _ _ _ Hpq Hpq') in Hqr'. now apply IH.
Qed.

(** The outcome of the policy is the one terminal state the machine of
    the specification can reach from the first attempt. *)
Lemma retry_is_the_state_machine (s : state)
  (t : phase W Headers Timeout A) :
  steps (ATTEMPTING 0 s) t -> halted t ->
  t = terminal
        (retry_with_exponential_backoff elapse base_delay max_attempts errors
           function s).
Proof.
  intros Ht Hhalt. apply (steps_halted_unique _ _ _ Ht (retry_steps s) Hhalt).
  destruct (retry_with_exponential_backoff _ _ _ _ _ _) as [s' [a|e]];
    exact I.
Qed.

End PolicyFacts.

(** ** One attempt *)

Section RequestFacts.

Context {W Headers Payload Timeout : Type}.
Variable transport : Request Headers Timeout -> W -> W * result Response.
Variable elapse : Z -> W -> W.
Variable json_dumps : Payload -> result string.
Variable OPENAI_BACKOFF : Z.
Variable OPENAI_MAX_RETRIES : nat.
Variable OPENAI_TIMEOUT : Timeout.

Local Abbreviation state := (state W Headers Timeout).
Local Abbreviation attempt :=
  (openai_request_attempt transport json_dumps OPENAI_TIMEOUT).
Local Abbreviation send :=
  (openai_request transport elapse json_dumps OPENAI_BACKOFF
     OPENAI_MAX_RETRIES OPENAI_TIMEOUT).
Local Abbreviation sent := (post_request OPENAI_TIMEOUT).

(** An attempt whose payload serialises makes one call and concludes from
    the reply. *)
Lemma attempt_run (url : string) (headers : Headers) (payload : Payload)
  (timeout : option Timeout) (data : string) (s : state) :
  json_dumps payload = Ok data ->
  let request := sent url headers data timeout in
  attempt url headers payload timeout s
  = (mkState (fst (transport request (world s)))
       (trace s ++ [EvRequest request (snd (transport request (world s)))])%list,
     conclude (snd (transport request (world s)))).
Proof.
  intros Hdata request.
  unfold openai_request_attempt, bind, lift, requests_request, json_loads.
  rewrite Hdata. fold (sent url headers data timeout). fold request.
  destruct (transport request (world s)) as [w' [response|e]]; simpl;
    [|reflexivity].
  destruct (Json.loads (text response)) as [res|]; [|reflexivity].
  unfold ret, raise.
  destruct (status_code response =? 200)%Z; simpl; [reflexivity|].
  destruct (status_code response =? 429)%Z; reflexivity.
Qed.

(** An attempt whose payload does not serialise raises before it calls. *)
Lemma attempt_unserialisable (url : string) (headers : Headers)
  (payload : Payload) (timeout : option Timeout) (e : exn) (s : state) :
  json_dumps payload = Raise e ->
  attempt url headers payload timeout s = (s, Raise e).
Proof.
  intros Hdata. unfold openai_request_attempt, bind, lift.
  now rewrite Hdata.
Qed.

(** C1, as amended: for every response with a status other than 200 whose
    body is valid JSON, one attempt fails with a classified error: status
    429 gives an [OpenAIRateLimitError] whose message ends with the
    response text, any other status an [OpenAIError] that carries the
    status code and whose message holds the code and the response text. *)
Theorem openai_request_attempt_classifies
  (url : string) (headers : Headers) (payload : Payload)
  (timeout : option Timeout) (data : string) (s : state) (w' : W)
  (response : Response) (res : Json.value) :
  json_dumps payload = Ok data ->
  transport (sent url headers data timeout) (world s) = (w', Ok response) ->
  status_code response <> 200%Z ->
  Json.loads (text response) = Some res ->
  exists (e : exn) (message : string),
    attempt url headers payload timeout s
    = (mkState w'
         (trace s
          ++ [EvRequest (sent url headers data timeout) (Ok response)])%list,
       Raise e)
    /\ contains message (text response)
    /\ catches openai_errors e = true
    /\ ((status_code response = 429%Z
         /\ e = OpenAIRateLimitError message
         /\ message = "API rate limit exceeded: " ++ text response)
        \/ (status_code response <> 429%Z
            /\ e = OpenAIError message (status_code response)
            /\ message
               = "OpenAI returned an error." ++ newline
                 ++ "Status code: " ++ str_int (status_code response)
                 ++ newline ++ "Response body: " ++ text response)).
Proof.
  intros Hdata Hreply Hstatus Hjson.
  rewrite (attempt_run _ _ _ _ _ _ Hdata), Hreply. cbn [fst snd conclude].
  rewrite Hjson.
  destruct (Z.eqb_spec (status_code response) 200) as [|_]; [contradiction|].
  destruct (Z.eqb_spec (status_code response) 429) as [H429|H429].
  - exists (OpenAIRateLimitError
              ("API rate limit exceeded: " ++ text response)),
      ("API rate limit exceeded: " ++ text response).
    split; [reflexivity|].
    split; [apply contains_suffix|]. split; [reflexivity|].
    left. auto.
  - eexists (OpenAIError _ (status_code response)), _.
    split; [reflexivity|].
    split; [|split; [reflexivity|right; auto]].
    do 5 apply contains_after. apply contains_suffix.
Qed.

(** C6: one attempt parses the body before it looks at the status: for
    every response whose body is not valid JSON, whatever its status (429
    and the other codes included), the attempt raises the decoder's
    [JSONDecodeError], which is neither an [OpenAIRateLimitError] nor an
    [OpenAIError]. *)
Theorem openai_request_attempt_parses_first
  (url : string) (headers : Headers) (payload : Payload)
  (timeout : option Timeout) (data : string) (s : state) (w' : W)
  (response : Response) :
  json_dumps payload = Ok data ->
  transport (sent url headers data timeout) (world s) = (w', Ok response) ->
  Json.loads (text response) = None ->
  attempt url headers payload timeout s
  = (mkState w'
       (trace s
        ++ [EvRequest (sent url headers data timeout) (Ok response)])%list,
     Raise (JSONDecodeError (text response)))
  /\ catches openai_errors (JSONDecodeError (text response)) = false
  /\ (forall message,
        JSONDecodeError (text response) <> OpenAIRateLimitError message)
  /\ (forall message status,
        JSONDecodeError (text response) <> OpenAIError message status).
Proof.
  intros Hdata Hreply Hjson.
  rewrite (attempt_run _ _ _ _ _ _ Hdata), Hreply. cbn [fst snd conclude].
  rewrite Hjson. repeat split; discriminate.
Qed.

(** ** The retry policy around the attempt *)

Lemma send_unserialisable (url : string) (headers : Headers)
  (payload : Payload) (timeout : option Timeout) (e : exn) (s : state) :
  json_dumps payload = Raise e -> catches openai_errors e = false ->
  send url headers payload timeout s = (s, Raise e).
Proof.
  intros Hdata He. apply attempt_from_fatal; [|exact He].
  now apply attempt_unserialisable.
Qed.

(** C5: for every payload (that serialises, so that the transport is
    called), when the transport answers status 200 with a JSON body,
    [openai_request] returns the parsed body from its first attempt: the
    run adds the one call to the trace and no wait. *)
Theorem openai_request_ok_first_attempt
  (url : string) (headers : Headers) (payload : Payload)
  (timeout : option Timeout) (data : string) (s : state) (w' : W)
  (response : Response) (res : Json.value) :
  json_dumps payload = Ok data ->
  transport (sent url headers data timeout) (world s) = (w', Ok response) ->
  status_code response = 200%Z ->
  Json.loads (text response) = Some res ->
  let s' :=
    mkState w'
      (trace s ++ [EvRequest (sent url headers data timeout) (Ok response)])%list
  in
  send url headers payload timeout s = (s', Ok res)
  /\ sleeps (trace s') = sleeps (trace s)
  /\ calls (trace s') = S (calls (trace s)).
Proof.
  intros Hdata Hreply Hstatus Hjson s'. split; [|split].
  - unfold openai_request, retry_with_exponential_backoff.
    rewrite attempt_from_eq, (attempt_run _ _ _ _ _ _ Hdata), Hreply.
    cbn [fst snd conclude]. now rewrite Hjson, Hstatus.
  - subst s'. cbn [trace]. rewrite sleeps_app. apply app_nil_r.
  - subst s'. cbn [trace]. rewrite calls_app. cbn. lia.
Qed.

(** The shape of every run: the attempts of a call see the replies
    [init ++ [final]] of the transport; every reply of [init] was concluded
    with a failure the policy catches, the outcome is the conclusion from
    [final], and a [final] that is itself such a failure is the reply to
    the last attempt allowed. *)
Lemma attempt_from_run (url : string) (headers : Headers)
  (payload : Payload) (timeout : option Timeout) (data : string) :
  json_dumps payload = Ok data ->
  forall (remaining i : nat) (s s' : state) (out : result Json.value),
    attempt_from elapse OPENAI_BACKOFF openai_errors
      (attempt url headers payload timeout) remaining i s = (s', out) ->
    exists (init : list (result Response)) (final : result Response),
      trace s'
      = (trace s
         ++ schedule (sent url headers data timeout) OPENAI_BACKOFF i
              (init ++ [final]))%list
      /\ out = conclude final
      /\ Forall (fun r => retryable openai_errors (conclude r) = true) init
      /\ List.length init <= remaining
      /\ (retryable openai_errors (conclude final) = true ->
          List.length init = remaining)
      /\ Forall
           (fun r => exists w, r = snd (transport
                                          (sent url headers data timeout) w))
           (init ++ [final]).
Proof.
  intros Hdata. induction remaining as [|remaining IH]; intros i s s' out Hrun;
    rewrite attempt_from_eq, (attempt_run _ _ _ _ _ _ Hdata) in Hrun;
    cbv zeta in Hrun;
    set (request := sent url headers data timeout) in *;
    set (reply := snd (transport request (world s))) in *;
    assert (Hreply : exists w, reply = snd (transport request w))
      by (now exists (world s));
    clearbody reply;
    destruct (conclude reply) as [res|e] eqn:Hc.
  1, 3: injection Hrun as <- <-; exists [], reply; cbn [trace app];
    rewrite Hc; cbn [retryable List.length];
    repeat split; auto; try discriminate; try lia.
  - destruct (catches openai_errors e) eqn:He;
      injection Hrun as <- <-; exists [], reply; cbn [trace app];
      rewrite Hc; cbn [retryable List.length];
      repeat split; auto; try congruence.
  - destruct (catches openai_errors e) eqn:He.
    + apply IH in Hrun as (init & final & Htr & Hout & Hinit & Hlen & Hlast
                           & Hfrom).
      exists (reply :: init), final. cbn [trace] in Htr.
      rewrite Htr, <- !app_assoc. cbn [app].
      rewrite schedule_cons by (destruct init; discriminate).
      cbn [List.length].
      repeat split; auto; try lia.
      constructor; [now rewrite Hc|exact Hinit].
    + injection Hrun as <- <-; exists [], reply; cbn [trace app];
        rewrite Hc; cbn [retryable List.length];
        repeat split; auto; try congruence; lia.
Qed.

Lemma nth_error_snoc {A : Type} (init : list A) (final r : A) (j : nat) :
  nth_error (init ++ [final]) j = Some r ->
  (j < List.length init /\ nth_error init j = Some r)
  \/ (j = List.length init /\ r = final).
Proof.
  intros H. destruct (Nat.lt_ge_cases j (List.length init)) as [Hlt|Hge].
  - left. split; [exact Hlt|]. now rewrite nth_error_app1 in H.
  - right. rewrite nth_error_app2 in H by exact Hge.
    destruct (j - List.length init) as [|k] eqn:Hk.
    + split; [lia|]. now injection H.
    + destruct k; discriminate.
Qed.

(** In a schedule, a call that is not the last is followed by the wait of
    its index and then by the next call. *)
Lemma schedule_split (request : Request Headers Timeout) (b : Z)
  (rs : list (result Response)) :
  forall (i j : nat) (r r' : result Response),
    nth_error rs j = Some r -> nth_error rs (S j) = Some r' ->
    exists pre post,
      schedule request b i rs
      = (pre ++ EvRequest request r :: EvSleep (b * 2 ^ Z.of_nat (i + j))
             :: EvRequest request r' :: post)%list
      /\ calls pre = j.
Proof.
  induction rs as [|r0 rest IH]; intros i j r r' Hj Hj'.
  - destruct j; discriminate.
  - destruct j as [|j].
    + injection Hj as ->. destruct rest as [|r1 rest]; [discriminate|].
      injection Hj' as ->. exists []. rewrite Nat.add_0_r.
      rewrite schedule_cons by discriminate.
      destruct rest as [|r2 rest].
      * now exists [].
      * rewrite schedule_cons by discriminate. eexists. now split.
    + cbn [nth_error] in Hj, Hj'.
      destruct (IH (S i) j r r' Hj Hj') as (pre & post & Heq & Hpre).
      exists (EvRequest request r0 :: EvSleep (b * 2 ^ Z.of_nat i) :: pre),
        post.
      rewrite schedule_cons by (destruct rest, j; discriminate).
      rewrite Heq. replace (i + S j) with (S i + j) by lia.
      split; [reflexivity|]. unfold calls in *. cbn [replies List.length].
      now rewrite Hpre.
Qed.

(** C2: the policy around [openai_request] catches exactly the two
    classified kinds, [OpenAIRateLimitError] and [OpenAIError].  In every
    run, with [rs] the replies the attempts received in order: an attempt
    that fails in any other way (the transport raised, or the body did not
    parse) is the last one, its failure is the outcome of the call as it
    is, and the trace ends with its call, so nothing is waited for or sent
    after it; and every attempt that was followed by another one had
    failed with a classified error, as every classified failure is while
    attempts are left. *)
Theorem openai_request_retries_classified_only
  (url : string) (headers : Headers) (payload : Payload)
  (timeout : option Timeout) (data : string) (s s' : state)
  (out : result Json.value) :
  json_dumps payload = Ok data ->
  send url headers payload timeout s = (s', out) ->
  (forall e : exn,
      catches openai_errors e = true
      <-> (exists message, e = OpenAIRateLimitError message)
          \/ (exists message status, e = OpenAIError message status))
  /\ exists rs : list (result Response),
      trace s'
      = (trace s
         ++ schedule (sent url headers data timeout) OPENAI_BACKOFF 0 rs)%list
      /\ (forall j r e,
            nth_error rs j = Some r -> conclude r = Raise e ->
            catches openai_errors e = false ->
            S j = List.length rs /\ out = Raise e
            /\ exists pre,
                 trace s'
                 = (pre ++ [EvRequest (sent url headers data timeout) r])%list)
      /\ (forall j r,
            nth_error rs j = Some r -> S j < List.length rs ->
            exists e, conclude r = Raise e /\ catches openai_errors e = true)
      /\ (forall j r e,
            nth_error rs j = Some r -> conclude r = Raise e ->
            catches openai_errors e = true ->
            S j < OPENAI_MAX_RETRIES -> S j < List.length rs).
Proof.
  intros Hdata Hrun. split; [apply catches_openai_errors|].
  apply (attempt_from_run _ _ _ _ _ Hdata) in Hrun
    as (init & final & Htr & Hout & Hinit & Hlen & Hlast & _).
  exists (init ++ [final])%list. split; [exact Htr|].
  rewrite Forall_forall in Hinit. rewrite length_app. cbn [List.length].
  split; [|split].
  - intros j r e Hj Hc He.
    destruct (nth_error_snoc _ _ _ _ Hj) as [[_ Hin]|[-> ->]].
    + apply nth_error_In, Hinit in Hin. rewrite Hc in Hin.
      cbn [retryable] in Hin. congruence.
    + split; [lia|]. split; [congruence|].
      rewrite Htr. clear.
      assert (Hend : forall i,
                 exists pre,
                   schedule (sent url headers data timeout) OPENAI_BACKOFF i
                     (init ++ [final])
                   = (pre ++ [EvRequest (sent url headers data timeout)
                                final])%list).
      { induction init as [|r0 init IH]; intros i.
        - now exists [].
        - destruct (IH (S i)) as [pre Hpre]. cbn [app].
          rewrite schedule_cons by (destruct init; discriminate).
          rewrite Hpre. eexists (_ :: _ :: pre). reflexivity. }
      destruct (Hend 0) as [pre ->]. exists (trace s ++ pre)%list.
      now rewrite app_assoc.
  - intros j r Hj Hnext.
    destruct (nth_error_snoc _ _ _ _ Hj) as [[_ Hin]|[-> ->]]; [|lia].
    apply nth_error_In, Hinit in Hin.
    destruct (conclude r) as [res|e]; [discriminate|]. now exists e.
  - intros j r e Hj Hc He Hleft.
    destruct (nth_error_snoc _ _ _ _ Hj) as [[Hlt _]|[-> ->]]; [lia|].
    rewrite Hc in Hlast. specialize (Hlast He). lia.
Qed.

(** C3: when the transport answers every call with a response that the
    attempt classifies (a status other than 200, a JSON body), a call of
    [openai_request] with [OPENAI_MAX_RETRIES] attempts allowed (at least
    one) makes exactly that many calls and then raises the failure of the
    last attempt as that attempt raised it, with the status code and the
    text of the last response; when the transport always answers 429 this
    is an [OpenAIRateLimitError]. *)
Theorem openai_request_exhausts_attempts
  (url : string) (headers : Headers) (payload : Payload)
  (timeout : option Timeout) (data : string) (s : state) :
  0 < OPENAI_MAX_RETRIES ->
  json_dumps payload = Ok data ->
  (forall w : W,
      exists w' response res,
        transport (sent url headers data timeout) w = (w', Ok response)
        /\ status_code response <> 200%Z
        /\ Json.loads (text response) = Some res) ->
  exists (s' : state) (rs : list (result Response)) (last : Response)
         (e : exn),
    send url headers payload timeout s = (s', Raise e)
    /\ trace s'
       = (trace s
          ++ schedule (sent url headers data timeout) OPENAI_BACKOFF 0
               (rs ++ [Ok last]))%list
    /\ List.length (rs ++ [Ok last]) = OPENAI_MAX_RETRIES
    /\ calls (trace s') = calls (trace s) + OPENAI_MAX_RETRIES
    /\ conclude (Ok last) = Raise e
    /\ ((status_code last = 429%Z
         /\ e = OpenAIRateLimitError
                  ("API rate limit exceeded: " ++ text last))
        \/ (status_code last <> 429%Z
            /\ e = OpenAIError
                     ("OpenAI returned an error." ++ newline
                      ++ "Status code: " ++ str_int (status_code last)
                      ++ newline ++ "Response body: " ++ text last)
                     (status_code last)))
    /\ ((forall w, exists w' response,
            transport (sent url headers data timeout) w = (w', Ok response)
            /\ status_code response = 429%Z) ->
        exists message, e = OpenAIRateLimitError message).
Proof.
  intros Hmax Hdata Hbad.
  destruct (send url headers payload timeout s) as [s' out] eqn:Hrun.
  exists s'.
  pose proof (attempt_from_run _ _ _ _ _ Hdata _ _ _ _ _ Hrun)
    as (init & final & Htr & Hout & _ & _ & Hlast & Hfrom).
  apply Forall_app in Hfrom as [_ Hfinal].
  apply Forall_inv in Hfinal as [w Hfinal].
  destruct (Hbad w) as (w' & last & res & Hw & Hstatus & Hjson).
  rewrite Hw in Hfinal. cbn [snd] in Hfinal. subst final.
  assert (Hc : exists e,
             conclude (Ok last) = Raise e
             /\ catches openai_errors e = true
             /\ ((status_code last = 429%Z
                  /\ e = OpenAIRateLimitError
                           ("API rate limit exceeded: " ++ text last))
                 \/ (status_code last <> 429%Z
                     /\ e = OpenAIError
                              ("OpenAI returned an error." ++ newline
                               ++ "Status code: "
                               ++ str_int (status_code last)
                               ++ newline ++ "Response body: " ++ text last)
                              (status_code last)))).
  { cbn [conclude]. rewrite Hjson.
    destruct (Z.eqb_spec (status_code last) 200) as [|_]; [contradiction|].
    destruct (Z.eqb_spec (status_code last) 429) as [H429|H429];
      eexists; (split; [reflexivity|]); (split; [reflexivity|]); auto. }
  destruct Hc as (e & Hc & He & Hkind).
  exists init, last, e.
  assert (Hn : List.length (init ++ [Ok last]) = OPENAI_MAX_RETRIES).
  { rewrite length_app. cbn [List.length].
    rewrite Hlast by (rewrite Hc; exact He). lia. }
  split; [congruence|]. split; [exact Htr|]. split; [exact Hn|].
  split; [|split; [exact Hc|split; [exact Hkind|]]].
  - rewrite Htr, calls_app. unfold calls at 2.
    now rewrite replies_schedule, Hn.
  - intros H429. destruct (H429 w) as (w2 & r2 & Hw2 & Hs2).
    assert (r2 = last) by congruence. subst r2.
    destruct Hkind as [[_ ->]|[Hne _]]; [eauto|contradiction].
Qed.

(** C4: in every run of [openai_request], an attempt [j] (counted from 0)
    that fails with a classified error while attempts are left is followed
    in the trace by a wait of [OPENAI_BACKOFF * 2^j] and only then by
    attempt [j+1]; the waits of the run are the first terms of that
    progression, each twice the one before.  With a base delay of 1 and the
    scripted replies 429, 429, 200 the waits are 1 and 2 and the call
    succeeds. *)
Theorem openai_request_backoff_schedule
  (url : string) (headers : Headers) (payload : Payload)
  (timeout : option Timeout) (data : string) (s s' : state)
  (out : result Json.value) :
  json_dumps payload = Ok data ->
  send url headers payload timeout s = (s', out) ->
  (exists rs : list (result Response),
      rs <> []
      /\ replies (trace s') = (replies (trace s) ++ rs)%list
      /\ sleeps (trace s')
         = (sleeps (trace s)
            ++ backoff_waits OPENAI_BACKOFF (List.length rs - 1))%list
      /\ (forall j r,
            nth_error rs j = Some r ->
            retryable openai_errors (conclude r) = true ->
            S j < OPENAI_MAX_RETRIES ->
            exists r' pre post,
              nth_error rs (S j) = Some r'
              /\ trace s'
                 = (trace s ++ pre
                    ++ EvRequest (sent url headers data timeout) r
                       :: EvSleep (OPENAI_BACKOFF * 2 ^ Z.of_nat j)
                       :: EvRequest (sent url headers data timeout) r'
                       :: post)%list
              /\ calls pre = j)
      /\ (forall j,
            S j < List.length rs - 1 ->
            nth (S j) (backoff_waits OPENAI_BACKOFF (List.length rs - 1)) 0%Z
            = (2 * nth j (backoff_waits OPENAI_BACKOFF (List.length rs - 1))
                     0)%Z))
  /\ sleeps (trace (fst (Mock.send 3 1
                           [Ok Mock.r429; Ok Mock.r429; Ok Mock.r200])))
     = [1%Z; 2%Z]
  /\ snd (Mock.send 3 1 [Ok Mock.r429; Ok Mock.r429; Ok Mock.r200])
     = Ok (Json.JObject
             [("data", Json.JArray [Json.JInt 1; Json.JInt 2; Json.JInt 3])]).
Proof.
  intros Hdata Hrun. split; [|split; vm_compute; reflexivity].
  pose proof (attempt_from_run _ _ _ _ _ Hdata _ _ _ _ _ Hrun)
    as (init & final & Htr & Hout & Hinit & Hlen & Hlast & _).
  exists (init ++ [final])%list.
  split; [destruct init; discriminate|].
  split; [now rewrite Htr, replies_app, replies_schedule|].
  split; [now rewrite Htr, sleeps_app, sleeps_schedule|].
  split.
  - intros j r Hj Hr Hleft.
    assert (Hnext : S j < List.length (init ++ [final])).
    { rewrite length_app. cbn [List.length].
      destruct (nth_error_snoc _ _ _ _ Hj) as [[Hlt _]|[-> ->]]; [lia|].
      specialize (Hlast Hr). lia. }
    destruct (nth_error (init ++ [final]) (S j)) as [r'|] eqn:Hj';
      [|apply nth_error_None in Hj'; lia].
    destruct (schedule_split (sent url headers data timeout) OPENAI_BACKOFF
                _ 0 j r r' Hj Hj') as (pre & post' & Heq & Hpre).
    exists r', pre, post'. split; [reflexivity|].
    split; [|exact Hpre]. now rewrite Htr, Heq.
  - intros j Hj. now apply backoff_waits_double.
Qed.

End RequestFacts.

(** ** The scenarios of the specification, on the scripted transport *)

(** C1 as it stands fails on a throttled response whose body is plain
    text: the status is 429, and the attempt raises the decoder's error,
    which is not a classified one.  So not every response with a status
    other than 200 makes the attempt fail with a classified error. *)
Lemma openai_request_attempt_text_body_unclassified :
  status_code Mock.r429_text = 429%Z
  /\ status_code Mock.r429_text <> 200%Z
  /\ snd (Mock.attempt [Ok Mock.r429_text])
     = Raise (JSONDecodeError "Too Many Requests")
  /\ catches openai_errors (JSONDecodeError "Too Many Requests") = false
  /\ ~ (forall response : Response,
          status_code response <> 200%Z ->
          exists e,
            snd (Mock.attempt [Ok response]) = Raise e
            /\ ((exists message, e = OpenAIRateLimitError message)
                \/ (exists message status, e = OpenAIError message status))).
Proof.
  split; [reflexivity|]. split; [discriminate|].
  split; [vm_compute; reflexivity|]. split; [reflexivity|].
  intros H. destruct (H Mock.r429_text) as (e & He & Hkind); [discriminate|].
  vm_compute in He. injection He as <-.
  destruct Hkind as [[m Hm]|[m [c Hm]]]; discriminate.
Qed.

Lemma openai_request_attempt_classifies_witness :
  Mock.json_dumps (Json.JObject []) = Ok "{}"
  /\ Mock.transport Mock.request [Ok Mock.r429] = ([], Ok Mock.r429)
  /\ status_code Mock.r429 <> 200%Z
  /\ (exists res, Json.loads (text Mock.r429) = Some res)
  /\ exists e,
       snd (Mock.attempt [Ok Mock.r429]) = Raise e
       /\ catches openai_errors e = true.
Proof.
  split; [reflexivity|]. split; [reflexivity|]. split; [discriminate|].
  split; [eexists; vm_compute; reflexivity|].
  destruct (openai_request_attempt_classifies Mock.transport Mock.json_dumps
              30%Z Mock.url Mock.headers (Json.JObject []) None "{}"
              (Mock.start [Ok Mock.r429]) [] Mock.r429
              (Json.JObject
                 [("error", Json.JObject
                              [("message", Json.JString "slow down")])]))
    as (e & message & Hrun & _ & He & _).
  - reflexivity.
  - reflexivity.
  - discriminate.
  - vm_compute. reflexivity.
  - exists e. split; [|exact He].
    unfold Mock.attempt. now rewrite Hrun.
Defined.

Lemma openai_request_attempt_parses_first_witness :
  Mock.json_dumps (Json.JObject []) = Ok "{}"
  /\ Mock.transport Mock.request [Ok Mock.r502_html] = ([], Ok Mock.r502_html)
  /\ Json.loads (text Mock.r502_html) = None
  /\ snd (Mock.attempt [Ok Mock.r502_html])
     = Raise (JSONDecodeError "<html>Bad Gateway</html>").
Proof.
  split; [reflexivity|]. split; [reflexivity|].
  split; [vm_compute; reflexivity|].
  destruct (openai_request_attempt_parses_first Mock.transport
              Mock.json_dumps 30%Z Mock.url Mock.headers (Json.JObject [])
              None "{}" (Mock.start [Ok Mock.r502_html]) [] Mock.r502_html)
    as (Hrun & _).
  - reflexivity.
  - reflexivity.
  - vm_compute. reflexivity.
  - unfold Mock.attempt. now rewrite Hrun.
Defined.

Lemma openai_request_ok_first_attempt_witness :
  Mock.json_dumps (Json.JObject []) = Ok "{}"
  /\ Mock.transport Mock.request [Ok Mock.r200] = ([], Ok Mock.r200)
  /\ status_code Mock.r200 = 200%Z
  /\ snd (Mock.send 6 3 [Ok Mock.r200])
     = Ok (Json.JObject
             [("data", Json.JArray [Json.JInt 1; Json.JInt 2; Json.JInt 3])])
  /\ sleeps (trace (fst (Mock.send 6 3 [Ok Mock.r200]))) = []
  /\ calls (trace (fst (Mock.send 6 3 [Ok Mock.r200]))) = 1.
Proof.
  split; [reflexivity|]. split; [reflexivity|]. split; [reflexivity|].
  destruct (openai_request_ok_first_attempt Mock.transport Mock.elapse
              Mock.json_dumps 3%Z 6 30%Z Mock.url Mock.headers
              (Json.JObject []) None "{}" (Mock.start [Ok Mock.r200]) []
              Mock.r200
              (Json.JObject
                 [("data",
                   Json.JArray [Json.JInt 1; Json.JInt 2; Json.JInt 3])]))
    as (Hrun & Hsleeps & Hcalls).
  - reflexivity.
  - reflexivity.
  - reflexivity.
  - vm_compute. reflexivity.
  - unfold Mock.send. rewrite Hrun. cbn [fst snd].
    split; [reflexivity|]. split; [exact Hsleeps|exact Hcalls].
Defined.

(** A throttled call, then a gateway page: the second attempt is the last,
    its decoding error is the outcome, and the reply held in reserve is
    never asked for. *)
Lemma openai_request_retries_classified_only_witness :
  let script := [Ok Mock.r429; Ok Mock.r502_html; Ok Mock.r200] in
  Mock.json_dumps (Json.JObject []) = Ok "{}"
  /\ snd (Mock.send 3 1 script)
     = Raise (JSONDecodeError "<html>Bad Gateway</html>")
  /\ world (fst (Mock.send 3 1 script)) = [Ok Mock.r200]
  /\ exists pre,
       trace (fst (Mock.send 3 1 script))
       = (pre ++ [EvRequest Mock.request (Ok Mock.r502_html)])%list.
Proof.
  intros script. split; [reflexivity|]. split; [vm_compute; reflexivity|].
  split; [vm_compute; reflexivity|].
  destruct (openai_request_retries_classified_only Mock.transport Mock.elapse
              Mock.json_dumps 1%Z 3 30%Z Mock.url Mock.headers
              (Json.JObject []) None "{}" (Mock.start script)
              (fst (Mock.send 3 1 script)) (snd (Mock.send 3 1 script)))
    as (_ & rs & Htr & Hfatal & _).
  - reflexivity.
  - vm_compute. reflexivity.
  - pose proof (f_equal replies Htr) as Hrs.
    rewrite replies_app, replies_schedule in Hrs.
    vm_compute in Hrs. subst rs.
    destruct (Hfatal 1 (Ok Mock.r502_html)
                (JSONDecodeError "<html>Bad Gateway</html>"))
      as (_ & _ & pre & Hpre).
    + reflexivity.
    + vm_compute. reflexivity.
    + reflexivity.
    + exists pre. exact Hpre.
Defined.

Lemma openai_request_exhausts_attempts_witness :
  let s := mkState (Headers := Mock.Headers) (Timeout := Mock.Timeout) 0 [] in
  let run :=
    openai_request (Mock.always Mock.r429) (fun _ n => n) Mock.json_dumps
      2%Z 3 30%Z Mock.url Mock.headers (Json.JObject []) None s in
  0 < 3
  /\ Mock.json_dumps (Json.JObject []) = Ok "{}"
  /\ (forall w, Mock.always Mock.r429 Mock.request w = (S w, Ok Mock.r429))
  /\ calls (trace (fst run)) = 3
  /\ world (fst run) = 3
  /\ exists message, snd run = Raise (OpenAIRateLimitError message).
Proof.
  intros s run. split; [lia|]. split; [reflexivity|].
  split; [reflexivity|].
  destruct (openai_request_exhausts_attempts (Mock.always Mock.r429)
              (fun _ n => n) Mock.json_dumps 2%Z 3 30%Z Mock.url Mock.headers
              (Json.JObject []) None "{}" s)
    as (s' & rs & last & e & Hrun & _ & _ & Hcalls & _ & _ & H429).
  - lia.
  - reflexivity.
  - intros w. exists (S w), Mock.r429. eexists.
    split; [reflexivity|]. split; [discriminate|]. vm_compute. reflexivity.
  - fold run in Hrun. rewrite Hrun. cbn [fst snd].
    split; [exact Hcalls|]. split.
    + change s' with (fst (s', @Raise Json.value e)). rewrite <- Hrun.
      vm_compute. reflexivity.
    + destruct H429 as [message ->]; [|now exists message].
      intros w. exists (S w), Mock.r429. now split.
Defined.

Lemma openai_request_backoff_schedule_witness :
  let script := [Ok Mock.r429; Ok Mock.r429; Ok Mock.r200] in
  Mock.json_dumps (Json.JObject []) = Ok "{}"
  /\ replies (trace (fst (Mock.send 3 1 script))) = script
  /\ sleeps (trace (fst (Mock.send 3 1 script))) = backoff_waits 1 2
  /\ exists pre post,
       trace (fst (Mock.send 3 1 script))
       = (pre ++ EvRequest Mock.request (Ok Mock.r429) :: EvSleep 2
              :: EvRequest Mock.request (Ok Mock.r200) :: post)%list
       /\ calls pre = 1.
Proof.
  intros script. split; [reflexivity|].
  destruct (openai_request_backoff_schedule Mock.transport Mock.elapse
              Mock.json_dumps 1%Z 3 30%Z Mock.url Mock.headers
              (Json.JObject []) None "{}" (Mock.start script)
              (fst (Mock.send 3 1 script)) (snd (Mock.send 3 1 script)))
    as ((rs & _ & Hreplies & Hsleeps & Hnext & _) & _).
  - reflexivity.
  - vm_compute. reflexivity.
  - pose proof Hreplies as Hrs. vm_compute in Hrs. subst rs.
    split; [exact Hreplies|]. split; [exact Hsleeps|].
    destruct (Hnext 1 (Ok Mock.r429)) as (r' & pre & post & Hr' & Htr & Hpre).
    + reflexivity.
    + vm_compute. reflexivity.
    + lia.
    + injection Hr' as <-. exists pre, post. split; [exact Htr|exact Hpre].
Defined.

(** ** Scripts of any length *)

Lemma mock_attempt (reply : result Response) (rest : Mock.World)
  (tr : list (event Mock.Headers Mock.Timeout)) :
  openai_request_attempt Mock.transport Mock.json_dumps 30%Z Mock.url
    Mock.headers (Json.JObject []) None (mkState (reply :: rest) tr)
  = (mkState rest (tr ++ [EvRequest Mock.request reply])%list,
     conclude reply).
Proof.
  now rewrite (attempt_run Mock.transport Mock.json_dumps 30%Z Mock.url
                 Mock.headers (Json.JObject []) None "{}" _ eq_refl).
Qed.

(** Classified failures, then a success: the policy goes through the
    script as long as attempts are left for it. *)
Lemma mock_attempt_from_recovers (b : Z) (ok : Response) (v : Json.value)
  (rest : Mock.World) (fails : list Response) :
  Forall (fun r => retryable openai_errors (conclude (Ok r)) = true) fails ->
  conclude (Ok ok) = Ok v ->
  forall (remaining i : nat) (tr : list (event Mock.Headers Mock.Timeout)),
    List.length fails <= remaining ->
    attempt_from Mock.elapse b openai_errors
      (openai_request_attempt Mock.transport Mock.json_dumps 30%Z Mock.url
         Mock.headers (Json.JObject []) None)
      remaining i (mkState (map Ok fails ++ Ok ok :: rest)%list tr)
    = (mkState rest
         (tr ++ schedule Mock.request b i (map Ok fails ++ [Ok ok]))%list,
       Ok v).
Proof.
  intros Hfails Hok.
  induction Hfails as [|r fails Hr _ IH]; intros remaining i tr Hlen;
    rewrite attempt_from_eq; cbn [map app]; rewrite mock_attempt.
  - rewrite Hok. reflexivity.
  - destruct (conclude (Ok r)) as [res|e]; [discriminate|].
    cbn [retryable] in Hr. rewrite Hr.
    destruct remaining as [|remaining]; [cbn in Hlen; lia|].
    cbn [world trace Mock.elapse]. rewrite IH by (cbn in Hlen; lia).
    rewrite schedule_cons by (destruct fails; discriminate).
    now rewrite <- !app_assoc.
Qed.

(** The second testable property of the specification: a transport that
    answers 429 to the first [k] calls, [k] below the attempt ceiling, and
    200 to the next makes the call succeed after [k + 1] calls and the [k]
    waits [base_delay * 2^0 .. base_delay * 2^(k-1)]. *)
Lemma mock_send_recovers (max_attempts k : nat) (base_delay : Z) :
  k < max_attempts ->
  let run :=
    Mock.send max_attempts base_delay
      (repeat (Ok Mock.r429) k ++ [Ok Mock.r200])%list in
  snd run
  = Ok (Json.JObject
          [("data", Json.JArray [Json.JInt 1; Json.JInt 2; Json.JInt 3])])
  /\ calls (trace (fst run)) = S k
  /\ sleeps (trace (fst run)) = backoff_waits base_delay k.
Proof.
  intros Hk run.
  assert (Hrun : run
                 = (mkState []
                      (schedule Mock.request base_delay 0
                         (map Ok (repeat Mock.r429 k) ++ [Ok Mock.r200])%list),
                    Ok (Json.JObject
                          [("data", Json.JArray
                                      [Json.JInt 1; Json.JInt 2;
                                       Json.JInt 3])]))).
  { subst run. unfold Mock.send, openai_request,
      retry_with_exponential_backoff, Mock.start.
    rewrite <- (map_repeat Mock.r429 k (@Ok Response)).
    rewrite (mock_attempt_from_recovers base_delay Mock.r200
               (Json.JObject
                  [("data", Json.JArray
                              [Json.JInt 1; Json.JInt 2; Json.JInt 3])])
               [] (repeat Mock.r429 k)).
    - reflexivity.
    - apply Forall_forall. intros r Hr. apply repeat_spec in Hr. now subst r.
    - vm_compute. reflexivity.
    - rewrite repeat_length. lia. }
  rewrite Hrun. cbn [fst snd trace]. split; [reflexivity|].
  unfold calls.
  rewrite replies_schedule, sleeps_schedule, length_app, length_map,
    repeat_length.
  cbn [List.length]. split; [lia|].
  unfold backoff_waits. f_equal. f_equal. lia.
Qed.

(** The fourth testable property of the specification: a transport
    answering 500 is retried like one answering 429, and when the attempts
    are used up the failure carries the status code 500. *)
Example mock_send_exhausted_500 :
  let run := Mock.send 3 1 [Ok Mock.r500; Ok Mock.r500; Ok Mock.r500;
                            Ok Mock.r200] in
  (exists message, snd run = Raise (OpenAIError message 500))
  /\ calls (trace (fst run)) = 3
  /\ sleeps (trace (fst run)) = [1%Z; 2%Z]
  /\ world (fst run) = [Ok Mock.r200].
Proof.
  cbv zeta. split; [eexists; vm_compute; reflexivity|].
  repeat split; vm_compute; reflexivity.
Qed.

(** A handle of the fast backend has no [tokenize]: counting with the flag
    of the other variant raises. *)
Example count_openai_tokens_wrong_flag :
  count_openai_tokens "a b" Mock.fast false = Raise (AttributeError "tokenize").
Proof. reflexivity. Qed.

(** * Further properties of the module *)

(** ** The prompt as a string *)

Lemma length_append (a b : string) :
  String.length (a ++ b) = String.length a + String.length b.
Proof. induction a as [|x a IH]; simpl; [reflexivity | now rewrite IH]. Qed.

Lemma append_cancel_l (a b c : string) : a ++ b = a ++ c -> b = c.
Proof.
  induction a as [|x a IH]; simpl; intros H; [exact H|].
  injection H as H. now apply IH.
Qed.

Lemma append_cancel_r (a b c : string) : a ++ c = b ++ c -> a = b.
Proof.
  revert b. induction a as [|x a IH]; intros [|y b] H; simpl in H.
  - reflexivity.
  - apply (f_equal String.length) in H. simpl in H.
    rewrite length_append in H. lia.
  - apply (f_equal String.length) in H. simpl in H.
    rewrite length_append in H. lia.
  - injection H as -> H. f_equal. now apply IH.
Qed.

Lemma prefix_append (a b : string) : String.prefix a (a ++ b) = true.
Proof.
  induction a as [|x a IH]; simpl; [now destruct b|].
  destruct (ascii_dec x x) as [_|Hx]; [exact IH|congruence].
Qed.

(** The prompt is as long as the message and the history together, plus
    the 2513 characters of the template around them: nothing of either is
    cut or padded. *)
Theorem get_prompt_length (message history : string) :
  String.length (get_prompt message history)
  = String.length message + String.length history + 2513.
Proof.
  unfold get_prompt. rewrite !length_append, prompt_instructions_length.
  simpl String.length. lia.
Qed.

(** Whatever the message and the history, the prompt starts with the fixed
    instructions: what the caller supplies comes after them and cannot
    replace or precede them. *)
Theorem get_prompt_starts_with_instructions (message history : string) :
  String.prefix prompt_instructions (get_prompt message history) = true
  /\ substring 0 2482 (get_prompt message history) = prompt_instructions.
Proof.
  split; [apply prefix_append|].
  unfold get_prompt. rewrite <- prompt_instructions_length.
  set (rest := "    " ++ _). generalize prompt_instructions as a.
  induction a as [|x a IH]; simpl; [now destruct rest | now rewrite IH].
Qed.

(** With the history fixed the prompt determines the message, and with the
    message fixed it determines the history. *)
Theorem get_prompt_injective_in_each (message message' history history'
                                      : string) :
  (get_prompt message history = get_prompt message' history ->
   message = message')
  /\ (get_prompt message history = get_prompt message history' ->
      history = history').
Proof.
  unfold get_prompt. split; intros H.
  - do 5 apply append_cancel_l in H. now apply append_cancel_r in H.
  - do 2 apply append_cancel_l in H. now apply append_cancel_r in H.
Qed.

Lemma get_prompt_injective_in_each_witness :
  get_prompt "hello" "Human: hi" = get_prompt "hello" "Human: hi"
  /\ "hello" = "hello" /\ "Human: hi" = "Human: hi".
Proof.
  split; [reflexivity|]. split.
  - apply (proj1 (get_prompt_injective_in_each
                    "hello" "hello" "Human: hi" "Human: hi")).
    reflexivity.
  - apply (proj2 (get_prompt_injective_in_each
                    "hello" "hello" "Human: hi" "Human: hi")).
    reflexivity.
Defined.

(** The prompt does not determine the message and the history together:
    a message that holds a line break followed by [    Human: ] reads as
    one more turn of the history.  The turn can be moved from the end of
    the history to the start of the message without changing the
    prompt. *)
Theorem get_prompt_turn_boundary_ambiguous (history turn message : string) :
  get_prompt message (history ++ newline ++ "    Human: " ++ turn)
  = get_prompt (turn ++ newline ++ "    Human: " ++ message) history
  /\ (message, history ++ newline ++ "    Human: " ++ turn)
     <> (turn ++ newline ++ "    Human: " ++ message, history).
Proof.
  split.
  - unfold get_prompt. now rewrite !append_assoc.
  - intros H. injection H as _ H.
    apply (f_equal String.length) in H. rewrite !length_append in H.
    simpl in H. lia.
Qed.

(** ** The enumeration of embedding models *)

(** Looking a member up by its value gives the member back, a lookup that
    succeeds returns a member with the value asked for, and any other
    string raises: the five values are distinct.  The default model of
    [EmbeddingConfig] is the value of [ada_002]. *)
Theorem EmbeddingModels_lookup_value :
  (forall m, Embedding.lookup (Embedding.value m) = Ok m)
  /\ (forall v m, Embedding.lookup v = Ok m -> Embedding.value m = v)
  /\ (forall v,
        (forall m, Embedding.value m <> v) ->
        Embedding.lookup v = Raise (Builtin "ValueError" []))
  /\ Embedding.lookup (Embedding.model Embedding.defaults)
     = Ok Embedding.ada_002.
Proof.
  split; [intros []; reflexivity|]. split; [|split; [|reflexivity]].
  - intros v m. unfold Embedding.lookup.
    destruct (find _ _) as [m'|] eqn:Hfind; [|discriminate].
    intros [= ->]. apply find_some in Hfind as [_ Hv].
    now apply String.eqb_eq.
  - intros v Hv. unfold Embedding.lookup.
    destruct (find _ _) as [m|] eqn:Hfind; [|reflexivity].
    apply find_some in Hfind as [_ Hm]. apply String.eqb_eq in Hm.
    now destruct (Hv m).
Qed.

Lemma EmbeddingModels_lookup_value_witness :
  Embedding.lookup "*-curie-*-001" = Ok Embedding.curie
  /\ Embedding.value Embedding.curie = "*-curie-*-001"
  /\ Embedding.lookup "gpt-4" = Raise (Builtin "ValueError" []).
Proof.
  destruct EmbeddingModels_lookup_value as (_ & Hvalue & Hnone & _).
  split; [reflexivity|]. split.
  - apply Hvalue. reflexivity.
  - apply Hnone. intros []; discriminate.
Defined.

(** ** The loader with [tiktoken] installed *)

Section LoaderFacts.

Context {W Headers Timeout : Type}.
Variable get_encoding : string -> W -> W * result tokenizer.
Variable from_pretrained : string -> W -> W * result tokenizer.

Local Abbreviation state := (state W Headers Timeout).
Local Abbreviation load :=
  (load_openai_tokenizer (Headers := Headers) (Timeout := Timeout)
     (Some get_encoding) from_pretrained).

(** With [use_tiktoken] true and the package installed, the loader logs
    that it uses tiktoken and hands on what
    [tiktoken.get_encoding(tokenizer_name)] gives: the handle, or any
    exception that is not an [ImportError] (an unknown encoding name, say),
    unchanged. *)
Theorem load_openai_tokenizer_tiktoken (tokenizer_name : string) (s : state)
  (w' : W) (r : result tokenizer) :
  get_encoding tokenizer_name (world s) = (w', r) ->
  (forall e, r = Raise e -> isinstance e cImportError = false) ->
  load tokenizer_name true s
  = (mkState w'
       (trace s
        ++ [EvLog DEBUG ("Using tiktoken " ++ tokenizer_name
                         ++ " tokenizer")])%list,
     r).
Proof.
  intros Hget Hr.
  unfold load_openai_tokenizer, try_except, bind, import_tiktoken, ret,
    logger_debug, emit, call; cbn [world trace].
  rewrite Hget. destruct r as [t|e]; [reflexivity|].
  now rewrite (Hr e eq_refl).
Qed.

(** An [ImportError] raised inside [tiktoken.get_encoding] (or a
    [ModuleNotFoundError], its subclass) is caught by the same handler as a
    missing package: the caller sees the error that says the package was
    not found, although it was imported and the debug message was
    logged. *)
Theorem load_openai_tokenizer_masks_import_error (tokenizer_name : string)
  (s : state) (w' : W) (e : exn) :
  get_encoding tokenizer_name (world s) = (w', Raise e) ->
  isinstance e cImportError = true ->
  load tokenizer_name true s
  = (mkState w'
       (trace s
        ++ [EvLog DEBUG ("Using tiktoken " ++ tokenizer_name
                         ++ " tokenizer")])%list,
     Raise (ImportError ["The `tiktoken` package not found.";
                         "To install it use the following:";
                         "`pip install tiktoken`"])).
Proof.
  intros Hget He.
  unfold load_openai_tokenizer, try_except, bind, import_tiktoken, ret,
    logger_debug, emit, call, raise; cbn [world trace].
  now rewrite Hget, He.
Qed.

End LoaderFacts.

Lemma load_openai_tokenizer_tiktoken_witness :
  MockHub.get_encoding "cl100k_base" 0 = (1, Ok Mock.fast)
  /\ load_openai_tokenizer (Some MockHub.get_encoding)
       MockHub.from_pretrained "cl100k_base" true MockHub.start
     = (mkState 1 [EvLog DEBUG "Using tiktoken cl100k_base tokenizer"],
        Ok Mock.fast)
  /\ snd (load_openai_tokenizer (Some MockHub.get_encoding)
            MockHub.from_pretrained "p50k" true MockHub.start)
     = Raise (Builtin "ValueError" ["Unknown encoding"]).
Proof.
  split; [reflexivity|]. split.
  - apply (load_openai_tokenizer_tiktoken MockHub.get_encoding
             MockHub.from_pretrained "cl100k_base" MockHub.start 1
             (Ok Mock.fast)); [reflexivity|discriminate].
  - rewrite (load_openai_tokenizer_tiktoken MockHub.get_encoding
               MockHub.from_pretrained "p50k" MockHub.start 1
               (Raise (Builtin "ValueError" ["Unknown encoding"])));
      [reflexivity|reflexivity|].
    intros e [= <-]. reflexivity.
Defined.

Lemma load_openai_tokenizer_masks_import_error_witness :
  MockHub.get_encoding "needs-regex" 0
  = (1, Raise (ModuleNotFoundError "regex"))
  /\ isinstance (ModuleNotFoundError "regex") cImportError = true
  /\ load_openai_tokenizer (Some MockHub.get_encoding)
       MockHub.from_pretrained "needs-regex" true MockHub.start
     = (mkState 1 [EvLog DEBUG "Using tiktoken needs-regex tokenizer"],
        Raise (ImportError ["The `tiktoken` package not found.";
                            "To install it use the following:";
                            "`pip install tiktoken`"])).
Proof.
  split; [reflexivity|]. split; [reflexivity|].
  apply (load_openai_tokenizer_masks_import_error MockHub.get_encoding
           MockHub.from_pretrained "needs-regex" MockHub.start 1
           (ModuleNotFoundError "regex")); reflexivity.
Defined.

(** With [use_tiktoken] true the loader never turns to
    [GPT2TokenizerFast]: whether the package is there or not, the outcome
    is the same for every behaviour of [from_pretrained]. *)
Theorem load_openai_tokenizer_no_fallback {W Headers Timeout : Type}
  (tiktoken : option (string -> W -> W * result tokenizer))
  (from_pretrained from_pretrained' : string -> W -> W * result tokenizer)
  (tokenizer_name : string) (s : state W Headers Timeout) :
  load_openai_tokenizer tiktoken from_pretrained tokenizer_name true s
  = load_openai_tokenizer tiktoken from_pretrained' tokenizer_name true s.
Proof. reflexivity. Qed.

(** ** The outcomes of one attempt *)

Section AttemptFacts.

Context {W Headers Payload Timeout : Type}.
Variable transport : Request Headers Timeout -> W -> W * result Response.
Variable json_dumps : Payload -> result string.
Variable OPENAI_TIMEOUT : Timeout.

Local Abbreviation state := (state W Headers Timeout).
Local Abbreviation attempt :=
  (openai_request_attempt transport json_dumps OPENAI_TIMEOUT).
Local Abbreviation sent := (post_request OPENAI_TIMEOUT).

(** An attempt returns a value exactly when the payload serialises, the
    transport answers with status 200 and the body is valid JSON; the
    value is then the parsed body.  In particular no response with another
    status makes an attempt return. *)
Theorem openai_request_attempt_returns_iff
  (url : string) (headers : Headers) (payload : Payload)
  (timeout : option Timeout) (s s' : state) (res : Json.value) :
  attempt url headers payload timeout s = (s', Ok res)
  <-> exists data response,
        json_dumps payload = Ok data
        /\ transport (sent url headers data timeout) (world s)
           = (world s', Ok response)
        /\ trace s'
           = (trace s
              ++ [EvRequest (sent url headers data timeout) (Ok response)])%list
        /\ status_code response = 200%Z
        /\ Json.loads (text response) = Some res.
Proof.
  split.
  - intros Hrun. destruct (json_dumps payload) as [data|e] eqn:Hdata.
    + rewrite (attempt_run _ _ _ _ _ _ _ _ _ Hdata) in Hrun.
      cbv zeta in Hrun.
      destruct (transport (sent url headers data timeout) (world s))
        as [w' [response|e]] eqn:Hreply; cbn [fst snd conclude] in Hrun;
        [|discriminate].
      destruct (Json.loads (text response)) as [res'|] eqn:Hjson;
        [|discriminate].
      destruct (Z.eqb_spec (status_code response) 200) as [H200|_];
        [|destruct (status_code response =? 429)%Z; discriminate].
      injection Hrun as <- <-. exists data, response. now repeat split.
    + rewrite (attempt_unserialisable _ _ _ _ _ _ _ _ _ Hdata) in Hrun.
      discriminate.
  - intros (data & response & Hdata & Hreply & Htrace & H200 & Hjson).
    rewrite (attempt_run _ _ _ _ _ _ _ _ _ Hdata), Hreply.
    cbn [fst snd conclude]. rewrite Hjson, H200, <- Htrace.
    now destruct s'.
Qed.

(** The classification of a response, read both ways: the attempt raises
    an [OpenAIRateLimitError] exactly for a 429 with a JSON body, and an
    [OpenAIError] exactly for a status that is neither 200 nor 429 with a
    JSON body; the status code an [OpenAIError] carries is that of the
    response, so it is never 200 and never 429. *)
Theorem openai_request_attempt_classification
  (url : string) (headers : Headers) (payload : Payload)
  (timeout : option Timeout) (data : string) (s : state) (w' : W)
  (response : Response) :
  json_dumps payload = Ok data ->
  transport (sent url headers data timeout) (world s) = (w', Ok response) ->
  let out := snd (attempt url headers payload timeout s) in
  ((exists message, out = Raise (OpenAIRateLimitError message))
   <-> status_code response = 429%Z /\ Json.loads (text response) <> None)
  /\ ((exists message status, out = Raise (OpenAIError message status))
      <-> status_code response <> 200%Z /\ status_code response <> 429%Z
          /\ Json.loads (text response) <> None)
  /\ (forall message status,
        out = Raise (OpenAIError message status) ->
        status = status_code response /\ status <> 200%Z /\ status <> 429%Z).
Proof.
  intros Hdata Hreply out. subst out.
  rewrite (attempt_run _ _ _ _ _ _ _ _ _ Hdata), Hreply.
  cbn [fst snd conclude].
  destruct (Json.loads (text response)) as [res|] eqn:Hjson;
    [destruct (Z.eqb_spec (status_code response) 200) as [H200|H200];
     [|destruct (Z.eqb_spec (status_code response) 429) as [H429|H429]]|];
    repeat match goal with
      | |- _ /\ _ => split
      | |- _ <-> _ => split
      | |- _ -> _ => intro
      | |- forall _, _ => intro
      | H : exists _, _ |- _ => destruct H
      | H : _ /\ _ |- _ => destruct H
      | H : @Raise _ _ = @Raise _ _ |- _ => inversion H; clear H; subst
      end; try congruence; try lia; eauto.
Qed.

(** The exceptions of the collaborators come out of an attempt as they
    are: one raised by [json.dumps] before anything is sent, so that the
    state is untouched; one raised by the transport with the call on the
    trace and no look at any body. *)
Theorem openai_request_attempt_propagates
  (url : string) (headers : Headers) (payload : Payload)
  (timeout : option Timeout) (s : state) (e : exn) :
  (json_dumps payload = Raise e ->
   attempt url headers payload timeout s = (s, Raise e))
  /\ (forall data w',
        json_dumps payload = Ok data ->
        transport (sent url headers data timeout) (world s) = (w', Raise e) ->
        attempt url headers payload timeout s
        = (mkState w'
             (trace s
              ++ [EvRequest (sent url headers data timeout) (Raise e)])%list,
           Raise e)).
Proof.
  split.
  - apply attempt_unserialisable.
  - intros data w' Hdata Hreply.
    now rewrite (attempt_run _ _ _ _ _ _ _ _ _ Hdata), Hreply.
Qed.

(** What an attempt does to the world: it never waits and never logs, and
    it sends at most one request, which is a POST to the given URL with
    the given headers, the serialised payload as its data, and the given
    timeout or, when none is given, [OPENAI_TIMEOUT]. *)
Theorem openai_request_attempt_effects
  (url : string) (headers : Headers) (payload : Payload)
  (timeout : option Timeout) (s s' : state) (out : result Json.value) :
  attempt url headers payload timeout s = (s', out) ->
  (s' = s /\ exists e, json_dumps payload = Raise e /\ out = Raise e)
  \/ (exists data reply,
        json_dumps payload = Ok data
        /\ trace s'
           = (trace s
              ++ [EvRequest
                    (mkRequest "POST" url headers data
                       (match timeout with
                        | Some t => t
                        | None => OPENAI_TIMEOUT
                        end))
                    reply])%list
        /\ calls (trace s') = S (calls (trace s))
        /\ sleeps (trace s') = sleeps (trace s)).
Proof.
  intros Hrun. destruct (json_dumps payload) as [data|e] eqn:Hdata.
  - right. rewrite (attempt_run _ _ _ _ _ _ _ _ _ Hdata) in Hrun.
    cbv zeta in Hrun. injection Hrun as <- <-. cbn [trace].
    eexists data, _. split; [reflexivity|]. split; [reflexivity|].
    rewrite calls_app, sleeps_app. cbn. rewrite app_nil_r.
    split; [lia|reflexivity].
  - left. rewrite (attempt_unserialisable _ _ _ _ _ _ _ _ _ Hdata) in Hrun.
    injection Hrun as <- <-. split; [reflexivity|]. now exists e.
Qed.

End AttemptFacts.

Lemma openai_request_attempt_returns_iff_witness :
  MockSerial.attempt (Some "{}") None [Ok Mock.r200]
  = (mkState []
       [EvRequest (post_request 30%Z Mock.url Mock.headers "{}" None)
          (Ok Mock.r200)],
     Ok (Json.JObject
           [("data", Json.JArray [Json.JInt 1; Json.JInt 2; Json.JInt 3])])).
Proof.
  apply (proj2 (openai_request_attempt_returns_iff Mock.transport
                  MockSerial.json_dumps 30%Z Mock.url Mock.headers
                  (Some "{}") None (Mock.start [Ok Mock.r200]) _ _)).
  exists "{}", Mock.r200.
  split; [reflexivity|]. split; [reflexivity|]. split; [reflexivity|].
  split; [reflexivity|]. vm_compute. reflexivity.
Defined.

Lemma openai_request_attempt_classification_witness :
  MockSerial.json_dumps (Some "{}") = Ok "{}"
  /\ Mock.transport (post_request 30%Z Mock.url Mock.headers "{}" None)
       [Ok Mock.r500]
     = ([], Ok Mock.r500)
  /\ (exists message,
        snd (MockSerial.attempt (Some "{}") None [Ok Mock.r500])
        = Raise (OpenAIError message 500))
  /\ ~ (exists message,
          snd (MockSerial.attempt (Some "{}") None [Ok Mock.r500])
          = Raise (OpenAIRateLimitError message)).
Proof.
  split; [reflexivity|]. split; [reflexivity|].
  destruct (openai_request_attempt_classification Mock.transport
              MockSerial.json_dumps 30%Z Mock.url Mock.headers (Some "{}")
              None "{}" (Mock.start [Ok Mock.r500]) [] Mock.r500
              eq_refl eq_refl)
    as (Hlimit & Herror & Hstatus).
  split.
  - destruct (proj2 Herror) as (message & status & H).
    + split; [discriminate|]. split; [discriminate|].
      vm_compute. discriminate.
    + exists message. destruct (Hstatus _ _ H) as (-> & _). exact H.
  - intros H. apply Hlimit in H as [H _]. discriminate.
Defined.

Lemma openai_request_attempt_propagates_witness :
  MockSerial.json_dumps None
  = Raise (Builtin "TypeError"
             ["Object of type set is not JSON serializable"])
  /\ MockSerial.attempt None None [Ok Mock.r200]
     = (Mock.start [Ok Mock.r200],
        Raise (Builtin "TypeError"
                 ["Object of type set is not JSON serializable"]))
  /\ MockSerial.attempt (Some "{}") None
       [Raise (Builtin "Timeout" []); Ok Mock.r200]
     = (mkState [Ok Mock.r200]
          [EvRequest (post_request 30%Z Mock.url Mock.headers "{}" None)
             (Raise (Builtin "Timeout" []))],
        Raise (Builtin "Timeout" [])).
Proof.
  split; [reflexivity|]. split.
  - apply (proj1 (openai_request_attempt_propagates Mock.transport
                    MockSerial.json_dumps 30%Z Mock.url Mock.headers None
                    None (Mock.start [Ok Mock.r200]) _)).
    reflexivity.
  - apply (proj2 (openai_request_attempt_propagates Mock.transport
                    MockSerial.json_dumps 30%Z Mock.url Mock.headers
                    (Some "{}") None
                    (Mock.start [Raise (Builtin "Timeout" []); Ok Mock.r200])
                    (Builtin "Timeout" []))
             "{}" [Ok Mock.r200]); reflexivity.
Defined.

Lemma openai_request_attempt_effects_witness :
  let run := MockSerial.attempt (Some "{}") (Some 5%Z) [Ok Mock.r429] in
  exists reply,
    trace (fst run)
    = [EvRequest (mkRequest "POST" Mock.url Mock.headers "{}" 5%Z) reply]
    /\ calls (trace (fst run)) = 1
    /\ sleeps (trace (fst run)) = [].
Proof.
  intros run.
  destruct (openai_request_attempt_effects Mock.transport
              MockSerial.json_dumps 30%Z Mock.url Mock.headers (Some "{}")
              (Some 5%Z) (Mock.start [Ok Mock.r429]) (fst run) (snd run))
    as [(_ & e & He & _)|(data & reply & Hdata & Htrace & Hcalls & Hsleeps)].
  - subst run. unfold MockSerial.attempt.
    now destruct (openai_request_attempt _ _ _ _ _ _ _ _).
  - discriminate.
  - injection Hdata as <-. exists reply.
    split; [exact Htrace|]. split; [exact Hcalls|exact Hsleeps].
Defined.

(** ** Reading the prompt back *)

Lemma substring_prefix (b c : string) :
  substring 0 (String.length b) (b ++ c) = b.
Proof.
  induction b as [|x b IH]; simpl; [now destruct c | now rewrite IH].
Qed.

Lemma substring_middle (a b c : string) :
  substring (String.length a) (String.length b) (a ++ b ++ c) = b.
Proof.
  induction a as [|x a IH]; simpl; [apply substring_prefix | exact IH].
Qed.

(** The history and the message sit in the prompt unchanged at offsets
    that depend only on the length of the history: the history from
    character 2486, the message 12 characters after its end.  No escaping,
    trimming or truncation is applied to either. *)
Theorem get_prompt_fields_verbatim (message history : string) :
  substring 2486 (String.length history) (get_prompt message history)
  = history
  /\ substring (2498 + String.length history) (String.length message)
       (get_prompt message history)
     = message.
Proof.
  unfold get_prompt. split.
  - rewrite <- (append_assoc prompt_instructions "    ").
    replace 2486 with (String.length (prompt_instructions ++ "    "))
      by (rewrite length_append, prompt_instructions_length; reflexivity).
    apply substring_middle.
  - replace (prompt_instructions ++ "    " ++ history ++ newline
             ++ "    Human: " ++ message ++ newline ++ "    Assistant:")
      with ((prompt_instructions ++ "    " ++ history ++ newline
             ++ "    Human: ") ++ message ++ newline ++ "    Assistant:")
      by now rewrite !append_assoc.
    replace (2498 + String.length history)
      with (String.length (prompt_instructions ++ "    " ++ history
                           ++ newline ++ "    Human: "))
      by (rewrite !length_append, prompt_instructions_length; simpl; lia).
    apply substring_middle.
Qed.
